(** * Sourcing assistant: the non-UI core of [app.py]

    A shallow embedding of the catalog loader, the category resolver and
    supplier finder ([find_distributors]), and the three AI operations
    ([get_product_ideas], [verify_legitimacy], [generate_outreach_email])
    with their fallback paths.

    Python values are modelled by the inductive [value] (what [json.loads]
    produces and what the dict/list literals of the source build).  Python
    [str] is modelled by [string] (a sequence of 8-bit characters); [int] by
    [Z].  A [try: ... except Exception:] block is a computation in the
    exception monad [result]; the external text-generation client is a
    function from the request to either a raised exception or a response. *)

From Stdlib Require Import ZArith List Bool Ascii String DecimalString Lia.
From Stdlib Require DecimalZ.
Import ListNotations.
Open Scope string_scope.
Set Warnings "-register-all".

(** ** Python string primitives *)

(** Text is a byte string: [lower] and [strip] act on its ASCII characters
    and leave every other byte as it is. *)

Module Py.

(** The double quote character, and a newline. *)
Definition dq_char : ascii := ascii_of_nat 34.
Definition dq : string := String dq_char EmptyString.
Definition nl : string := String (ascii_of_nat 10) EmptyString.

(** [str(i)] and the [{i}] of an f-string, for an [int]. *)
Definition str_of_int (z : Z) : string := NilZero.string_of_int (Z.to_int z).

(** [str(b)] for a [bool]. *)
Definition str_of_bool (b : bool) : string := if b then "True" else "False".

(** [c.lower()] on one character: an ASCII capital becomes its small letter,
    any other byte is kept. *)
Definition lower_char (c : ascii) : ascii :=
  let n := nat_of_ascii c in
  if (65 <=? n)%nat && (n <=? 90)%nat then ascii_of_nat (n + 32) else c.

(** [s.lower()]. *)
Fixpoint lower (s : string) : string :=
  match s with
  | EmptyString => EmptyString
  | String c r => String (lower_char c) (lower r)
  end.

(** [sub in s]: substring containment, scanning [s] from the left. *)
Fixpoint contains (sub s : string) : bool :=
  if prefix sub s then true
  else match s with
       | EmptyString => false
       | String _ r => contains sub r
       end.

(** [s.find(sub)]: the lowest index where [sub] starts, [-1] if none. *)
Fixpoint find_from (sub s : string) (i : Z) : Z :=
  if prefix sub s then i
  else match s with
       | EmptyString => (-1)%Z
       | String _ r => find_from sub r (i + 1)
       end.

Definition find (s sub : string) : Z := find_from sub s 0.

(** [s.rfind(sub)]: the highest index where [sub] starts, [-1] if none. *)
Fixpoint rfind_from (sub s : string) (i : Z) : Z :=
  match s with
  | EmptyString => if prefix sub s then i else (-1)%Z
  | String _ r =>
      let later := rfind_from sub r (i + 1) in
      if (later =? -1)%Z then (if prefix sub s then i else (-1)%Z) else later
  end.

Definition rfind (s sub : string) : Z := rfind_from sub s 0.

(** A slice bound, as Python normalises it against the length. *)
Definition clamp_index (len i : Z) : Z :=
  if (i <? 0)%Z then Z.max 0 (i + len) else Z.min i len.

(** [s[start:stop]]. *)
Definition slice (s : string) (start stop : Z) : string :=
  let len := Z.of_nat (String.length s) in
  let lo := clamp_index len start in
  let hi := clamp_index len stop in
  substring (Z.to_nat lo) (Z.to_nat (hi - lo)) s.

(** [sep.join(l)]. *)
Definition join (sep : string) (l : list string) : string := String.concat sep l.

(** The characters [str.strip()] removes (the ASCII ones). *)
Definition is_space (c : ascii) : bool :=
  let n := nat_of_ascii c in
  (n =? 32)%nat || ((9 <=? n)%nat && (n <=? 13)%nat)
  || ((28 <=? n)%nat && (n <=? 31)%nat).

Fixpoint lstrip (s : string) : string :=
  match s with
  | EmptyString => EmptyString
  | String c r => if is_space c then lstrip r else s
  end.

Fixpoint rstrip (s : string) : string :=
  match s with
  | EmptyString => EmptyString
  | String c r =>
      match rstrip r with
      | EmptyString => if is_space c then EmptyString else String c EmptyString
      | r' => String c r'
      end
  end.

(** [s.strip()]. *)
Definition strip (s : string) : string := rstrip (lstrip s).

End Py.

(** ** Python values *)

(** The values [json.loads] builds, which are also the values the dict and
    list literals of the source build.  A [float] is kept as the text of its
    literal; a [dict] keeps its items in insertion order, with unique keys. *)
Inductive value : Type :=
| VNone
| VBool (b : bool)
| VInt (z : Z)
| VFloat (lexeme : string)
| VStr (s : string)
| VList (l : list value)
| VDict (items : list (string * value)).

(** [d.get(k)] on the items of a dict. *)
Fixpoint dict_get (k : string) (items : list (string * value)) : option value :=
  match items with
  | [] => None
  | (k', v) :: rest => if String.eqb k k' then Some v else dict_get k rest
  end.

(** [d[k] = v]: an existing key keeps its position and takes the new value. *)
Fixpoint dict_set (k : string) (v : value) (items : list (string * value))
  : list (string * value) :=
  match items with
  | [] => [(k, v)]
  | (k', v') :: rest =>
      if String.eqb k k' then (k, v) :: rest else (k', v') :: dict_set k v rest
  end.

(** [dict(pairs)]. *)
Definition dict_of_pairs (pairs : list (string * value)) : list (string * value) :=
  fold_left (fun d kv => dict_set (fst kv) (snd kv) d) pairs [].

(** [v[k]] read as an option: the value under [k] when [v] is a dict that
    has the key. *)
Definition field (k : string) (v : value) : option value :=
  match v with
  | VDict items => dict_get k items
  | _ => None
  end.

(** ** [json.loads] *)

(** The decoder of Python's [json] module with its default settings: the
    JSON grammar, the constants [NaN], [Infinity] and [-Infinity], strict
    strings (no raw control character), duplicate keys resolved as [dict]
    does.  [None] stands for a raised [JSONDecodeError].  Text is a byte
    string, so a [\uXXXX] escape is stored as the UTF-8 bytes of its code
    point. *)
Module Json.

Definition is_ws (c : ascii) : bool :=
  let n := nat_of_ascii c in
  (n =? 32)%nat || (n =? 9)%nat || (n =? 10)%nat || (n =? 13)%nat.

Fixpoint skip_ws (s : string) : string :=
  match s with
  | EmptyString => EmptyString
  | String c r => if is_ws c then skip_ws r else s
  end.

Definition is_digit (c : ascii) : bool :=
  let n := nat_of_ascii c in (48 <=? n)%nat && (n <=? 57)%nat.

(** The longest run of digits at the head of [s], and what follows it. *)
Fixpoint span_digits (s : string) : string * string :=
  match s with
  | EmptyString => (EmptyString, EmptyString)
  | String c r =>
      if is_digit c
      then let '(ds, rest) := span_digits r in (String c ds, rest)
      else (EmptyString, s)
  end.

Fixpoint Z_of_digits (acc : Z) (ds : string) : Z :=
  match ds with
  | EmptyString => acc
  | String c r => Z_of_digits (10 * acc + Z.of_nat (nat_of_ascii c - 48)) r
  end.

(** The fraction at the head of [s] (a dot and at least one digit), if
    there is one. *)
Definition scan_frac (s : string) : string * string :=
  match s with
  | String c r =>
      if Ascii.eqb c "." then
        match span_digits r with
        | (EmptyString, _) => (EmptyString, s)
        | (ds, rest) => (String c ds, rest)
        end
      else (EmptyString, s)
  | EmptyString => (EmptyString, s)
  end.

(** The exponent at the head of [s] (e or E, an optional sign and at least
    one digit), if there is one. *)
Definition scan_exp (s : string) : string * string :=
  match s with
  | String e r =>
      if Ascii.eqb e "e" || Ascii.eqb e "E" then
        let '(sign, r') :=
          match r with
          | String sg r1 =>
              if Ascii.eqb sg "+" || Ascii.eqb sg "-"
              then (String sg EmptyString, r1) else (EmptyString, r)
          | EmptyString => (EmptyString, r)
          end in
        match span_digits r' with
        | (EmptyString, _) => (EmptyString, s)
        | (ds, rest) => (String e (sign ++ ds), rest)
        end
      else (EmptyString, s)
  | EmptyString => (EmptyString, s)
  end.

(** [NUMBER_RE.match]: an optional minus sign, then a lone zero or a run of
    digits that starts with a non-zero one, then an optional fraction and an
    optional exponent; [int] of the integer part, or a float when a fraction
    or an exponent follows. *)
Definition match_number (s : string) : option (value * string) :=
  let '(neg, s1) :=
    match s with
    | String c r => if Ascii.eqb c "-" then (true, r) else (false, s)
    | EmptyString => (false, s)
    end in
  match s1 with
  | String d r =>
      if is_digit d then
        let '(ds, rest) :=
          if Ascii.eqb d "0" then (EmptyString, r) else span_digits r in
        let integer := String d ds in
        let '(frac, rest1) := scan_frac rest in
        let '(exp, rest2) := scan_exp rest1 in
        match frac, exp with
        | EmptyString, EmptyString =>
            let n := Z_of_digits 0 integer in
            Some (VInt (if neg then (- n)%Z else n), rest2)
        | _, _ =>
            Some (VFloat ((if neg then "-" else "") ++ integer ++ frac ++ exp), rest2)
        end
      else None
  | EmptyString => None
  end.

Definition hex_digit (c : ascii) : option N :=
  let n := N_of_ascii c in
  if (48 <=? n)%N && (n <=? 57)%N then Some (n - 48)%N
  else if (97 <=? n)%N && (n <=? 102)%N then Some (n - 87)%N
  else if (65 <=? n)%N && (n <=? 70)%N then Some (n - 55)%N
  else None.

Definition hex4 (a b c d : ascii) : option N :=
  match hex_digit a, hex_digit b, hex_digit c, hex_digit d with
  | Some x, Some y, Some z, Some w => Some (((x * 16 + y) * 16 + z) * 16 + w)%N
  | _, _, _, _ => None
  end.

Definition byte (n : N) : string := String (ascii_of_N n) EmptyString.

(** The UTF-8 bytes of a code point. *)
Definition utf8 (cp : N) : string :=
  if (cp <? 128)%N then byte cp
  else if (cp <? 2048)%N then
    byte (192 + cp / 64) ++ byte (128 + cp mod 64)
  else if (cp <? 65536)%N then
    byte (224 + cp / 4096) ++ byte (128 + (cp / 64) mod 64) ++ byte (128 + cp mod 64)
  else
    byte (240 + cp / 262144) ++ byte (128 + (cp / 4096) mod 64)
    ++ byte (128 + (cp / 64) mod 64) ++ byte (128 + cp mod 64).

Definition is_high_surrogate (u : N) : bool := (55296 <=? u)%N && (u <=? 56319)%N.
Definition is_low_surrogate (u : N) : bool := (56320 <=? u)%N && (u <=? 57343)%N.

(** The character a one-letter escape stands for. *)
Definition unescape (e : ascii) : option ascii :=
  if Ascii.eqb e Py.dq_char then Some Py.dq_char
  else if Ascii.eqb e "\" then Some "\"%char
  else if Ascii.eqb e "/" then Some "/"%char
  else if Ascii.eqb e "b" then Some (ascii_of_nat 8)
  else if Ascii.eqb e "f" then Some (ascii_of_nat 12)
  else if Ascii.eqb e "n" then Some (ascii_of_nat 10)
  else if Ascii.eqb e "r" then Some (ascii_of_nat 13)
  else if Ascii.eqb e "t" then Some (ascii_of_nat 9)
  else None.

Definition prepend (pre : string) (r : option (string * string))
  : option (string * string) :=
  match r with
  | Some (str, rest) => Some (pre ++ str, rest)
  | None => None
  end.

(** [scanstring], from just after the opening quote: the decoded string and
    the text after the closing quote. *)
Fixpoint scanstring (s : string) : option (string * string) :=
  match s with
  | EmptyString => None
  | String c r =>
      if Ascii.eqb c Py.dq_char then Some (EmptyString, r)
      else if Ascii.eqb c "\" then
        match r with
        | EmptyString => None
        | String e r1 =>
            if Ascii.eqb e "u" then
              match r1 with
              | String h1 (String h2 (String h3 (String h4 r2))) =>
                  match hex4 h1 h2 h3 h4 with
                  | None => None
                  | Some uni =>
                      match r2 with
                      | String b (String u (String l1 (String l2 (String l3 (String l4 r3))))) =>
                          match hex4 l1 l2 l3 l4 with
                          | Some uni2 =>
                              if is_high_surrogate uni && Ascii.eqb b "\"
                                 && Ascii.eqb u "u" && is_low_surrogate uni2
                              then prepend
                                     (utf8 (65536 + ((uni - 55296) * 1024 + (uni2 - 56320))))
                                     (scanstring r3)
                              else prepend (utf8 uni) (scanstring r2)
                          | None => prepend (utf8 uni) (scanstring r2)
                          end
                      | _ => prepend (utf8 uni) (scanstring r2)
                      end
                  end
              | _ => None
              end
            else
              match unescape e with
              | Some ch => prepend (String ch EmptyString) (scanstring r1)
              | None => None
              end
        end
      else if (nat_of_ascii c <? 32)%nat then None
      else prepend (String c EmptyString) (scanstring r)
  end.

(** [s] without its first [n] characters. *)
Fixpoint drop (n : nat) (s : string) : string :=
  match n, s with
  | O, _ => s
  | S n', String _ r => drop n' r
  | S _, EmptyString => EmptyString
  end.

(** [scan_once], [JSONArray] and [JSONObject].  The recursion of the decoder
    is on the nesting of the text; here it is on [fuel], which bounds the
    number of nested calls ([JsonFacts.loads_fuel_enough]: the fuel [loads]
    gives is always enough).  Two limits of the interpreter are left out:
    the recursion limit and the bound on the digits of an integer literal;
    both raise an exception that the callers catch like a decoding error. *)
Fixpoint scan_once (fuel : nat) (s : string) : option (value * string) :=
  match fuel with
  | O => None
  | S fuel' =>
      match s with
      | EmptyString => None
      | String c r =>
          if Ascii.eqb c Py.dq_char then
            match scanstring r with
            | Some (str, rest) => Some (VStr str, rest)
            | None => None
            end
          else if Ascii.eqb c "{" then
            match skip_ws r with
            | String c1 r1 =>
                if Ascii.eqb c1 "}" then Some (VDict [], r1)
                else if Ascii.eqb c1 Py.dq_char then object_loop fuel' r1 []
                else None
            | EmptyString => None
            end
          else if Ascii.eqb c "[" then
            match skip_ws r with
            | String c1 r1 =>
                if Ascii.eqb c1 "]" then Some (VList [], r1)
                else array_loop fuel' (String c1 r1) []
            | EmptyString => None
            end
          else if prefix "null" s then Some (VNone, drop 4 s)
          else if prefix "true" s then Some (VBool true, drop 4 s)
          else if prefix "false" s then Some (VBool false, drop 5 s)
          else
            match match_number s with
            | Some res => Some res
            | None =>
                if prefix "NaN" s then Some (VFloat "NaN", drop 3 s)
                else if prefix "Infinity" s then Some (VFloat "Infinity", drop 8 s)
                else if prefix "-Infinity" s then Some (VFloat "-Infinity", drop 9 s)
                else None
            end
      end
  end

(** The elements of an array, from the first character of an element;
    [acc] holds the elements read so far, last first. *)
with array_loop (fuel : nat) (s : string) (acc : list value)
  : option (value * string) :=
  match fuel with
  | O => None
  | S fuel' =>
      match scan_once fuel' s with
      | None => None
      | Some (v, rest) =>
          match skip_ws rest with
          | String c r =>
              if Ascii.eqb c "]" then Some (VList (rev (v :: acc)), r)
              else if Ascii.eqb c "," then array_loop fuel' (skip_ws r) (v :: acc)
              else None
          | EmptyString => None
          end
      end
  end

(** The members of an object, from just after the opening quote of a key;
    [acc] holds the pairs read so far, last first. *)
with object_loop (fuel : nat) (s : string) (acc : list (string * value))
  : option (value * string) :=
  match fuel with
  | O => None
  | S fuel' =>
      match scanstring s with
      | None => None
      | Some (key, rest) =>
          match skip_ws rest with
          | String colon r =>
              if Ascii.eqb colon ":" then
                match scan_once fuel' (skip_ws r) with
                | None => None
                | Some (v, rest1) =>
                    match skip_ws rest1 with
                    | String c r1 =>
                        if Ascii.eqb c "}" then
                          Some (VDict (dict_of_pairs (rev ((key, v) :: acc))), r1)
                        else if Ascii.eqb c "," then
                          match skip_ws r1 with
                          | String q r2 =>
                              if Ascii.eqb q Py.dq_char
                              then object_loop fuel' r2 ((key, v) :: acc)
                              else None
                          | EmptyString => None
                          end
                        else None
                    | EmptyString => None
                    end
                end
              else None
          | EmptyString => None
          end
      end
  end.

(** [json.loads(s)]: one value, with blanks allowed around it and nothing
    else after it. *)
Definition loads (s : string) : option value :=
  match scan_once (2 * String.length s + 2) (skip_ws s) with
  | Some (v, rest) =>
      match skip_ws rest with
      | EmptyString => Some v
      | _ => None
      end
  | None => None
  end.

End Json.

(** ** Exceptions *)

(** The exceptions the modelled code can raise; all are subclasses of
    Python's [Exception]. *)
Inductive exception : Type :=
| FileNotFoundError
| JSONDecodeError
| ValueError (msg : string)
| IndexError
| AttributeError
| APIError (msg : string).

(** A computation that returns a value or raises. *)
Inductive result (A : Type) : Type :=
| Ok (a : A)
| Raise (e : exception).

Arguments Ok {A} a.
Arguments Raise {A} e.

Definition bind {A B : Type} (c : result A) (k : A -> result B) : result B :=
  match c with
  | Ok a => k a
  | Raise e => Raise e
  end.

Notation "x <- c ;; k" := (bind c (fun x => k))
  (at level 61, c at next level, right associativity).

(** [try: body / except Exception: handler]. *)
Definition try_except {A : Type} (body : result A) (handler : exception -> A) : A :=
  match body with
  | Ok a => a
  | Raise e => handler e
  end.

(** [json.loads] as a computation. *)
Definition json_loads (s : string) : result value :=
  match Json.loads s with
  | Some v => Ok v
  | None => Raise JSONDecodeError
  end.

(** [l[0]]. *)
Definition first {A : Type} (l : list A) : result A :=
  match l with
  | x :: _ => Ok x
  | [] => Raise IndexError
  end.

(** ** The catalog *)

Module Distributor.
(** A supplier record of the catalog file.  The two fields the source
    reads with [.get] may be absent. *)
Record t : Type := mk {
  name : string;
  location : string;
  website : string;
  email : string;
  legitimacy_signals : option (list string);
  has_3pl : option bool
}.
End Distributor.

(** A [dict] from category key to supplier list, in insertion order: the
    catalog file read through its schema.  [DISTRIBUTORS] is what
    [load_distributors] returned; the empty dict is the empty list. *)
Definition catalog : Type := list (string * list Distributor.t).

(** [cat in D] and [D[cat]] in one: the suppliers under [cat], if the key is
    there. *)
Fixpoint lookup (cat : string) (D : catalog) : option (list Distributor.t) :=
  match D with
  | [] => None
  | (k, l) :: rest => if String.eqb cat k then Some l else lookup cat rest
  end.

(** [list(D.keys())]. *)
Definition keys (D : catalog) : list string := map fst D.

Section Loader.

(** The file system: the text of the file at a path, or nothing when the
    file cannot be opened or read. *)
Variable read_file : string -> option string.

Definition open_and_read (path : string) : result string :=
  match read_file path with
  | Some text => Ok text
  | None => Raise FileNotFoundError
  end.

(** [load_distributors]: the parsed file, or the empty dict. *)
Definition load_distributors : value :=
  try_except
    (text <- open_and_read "data/mock_distributors.json" ;;
     json_loads text)
    (fun _ => VDict []).

End Loader.

(** The category keyword table, in declaration order. *)
Definition CATEGORY_MAP : list (string * list string) :=
  [ ("pet", ["pet_products"]);
    ("electronics", ["electronics"]);
    ("phone", ["electronics"]);
    ("wireless", ["electronics"]);
    ("health", ["health_wellness"]);
    ("vitamin", ["health_wellness"]);
    ("supplement", ["health_wellness"]) ].

Section Finder.

Variable DISTRIBUTORS : catalog.

(** The first loop of [find_distributors]: the keys of the keywords found
    in the category, appended in table order. *)
Definition matched_categories (category : string) : list string :=
  fold_left
    (fun dist_categories '(key, cats) =>
       if Py.contains (Py.lower key) (Py.lower category)
       then (dist_categories ++ cats)%list
       else dist_categories)
    CATEGORY_MAP [].

(** [dist_categories] as the second loop receives it: every key of the
    catalog when no keyword was found. *)
Definition dist_categories (category : string) : list string :=
  match matched_categories category with
  | [] => keys DISTRIBUTORS
  | matched => matched
  end.

(** The second loop: the suppliers of each key that is in the catalog. *)
Definition collect (cats : list string) : list Distributor.t :=
  fold_left
    (fun found cat =>
       match lookup cat DISTRIBUTORS with
       | Some suppliers => (found ++ suppliers)%list
       | None => found
       end)
    cats [].

(** [found[:4] if found else []]. *)
Definition first_four (found : list Distributor.t) : list Distributor.t :=
  match found with
  | [] => []
  | _ => firstn 4 found
  end.

(** The supplier finder on resolved keys. *)
Definition find_in (cats : list string) : list Distributor.t :=
  first_four (collect cats).

Definition find_distributors (category product_name : string)
  : list Distributor.t :=
  find_in (dist_categories category).

End Finder.

(** ** The text-generation client *)

Record message : Type := { role : string; content : string }.

Record request : Type := {
  model : string;
  max_tokens : Z;
  messages : list message
}.

(** A content block of a response; only a text block has [.text]. *)
Record block : Type := { text : option string }.

Record response : Type := { blocks : list block }.

(** [response.content[0].text]. *)
Definition first_text (r : response) : result string :=
  b <- first (blocks r) ;;
  match text b with
  | Some t => Ok t
  | None => Raise AttributeError
  end.

Definition lines (l : list string) : string := Py.join Py.nl l.

Module Product.
Record t : Type := mk {
  name : string;
  description : string;
  price : string;
  profit_score : Z;
  demand : string
}.
End Product.

Module UserInfo.
(** The business profile; [.get] reads every field, so each may be absent. *)
Record t : Type := mk {
  name : option string;
  business_name : option string;
  monthly_volume : option string;
  state : option string
}.
End UserInfo.

(** [d.get(k, default)] on an optional field. *)
Definition get {A : Type} (field : option A) (default : A) : A :=
  match field with
  | Some a => a
  | None => default
  end.

(** [range(count)]. *)
Definition range (count : Z) : list Z := map Z.of_nat (seq 0 (Z.to_nat count)).

Section Operations.

(** [client.messages.create]: raises, or answers. *)
Variable create : request -> result response.

Definition ask (max_tokens : Z) (prompt : string) : result response :=
  create {| model := "claude-sonnet-4-20250514";
            max_tokens := max_tokens;
            messages := [ {| role := "user"; content := prompt |} ] |}.

(** *** Product ideation *)

Definition ideas_prompt (category : string) (count : Z) : string :=
  lines
    [ "You are an e-commerce market research expert. Generate "
        ++ Py.str_of_int count ++ " best-selling product ideas in the "
        ++ Py.dq ++ category ++ Py.dq ++ " category.";
      "";
      "For each product, provide:";
      "1. Product name";
      "2. Brief description (1 sentence)";
      "3. Estimated retail price";
      "4. Profit potential score (0-100)";
      "5. Demand level (High/Medium/Low)";
      "";
      "Format as JSON array with keys: name, description, price, profit_score, demand";
      "";
      "Focus on real, popular products that exist in wholesale markets." ].

(** The body of the [try] of [get_product_ideas]. *)
Definition ideas_try (category : string) (count : Z) : result value :=
  response <- ask 2000 (ideas_prompt category count) ;;
  content <- first_text response ;;
  let start := Py.find content "[" in
  let end_ := (Py.rfind content "]" + 1)%Z in
  if negb (start =? -1)%Z && (end_ >? start)%Z then
    products <- json_loads (Py.slice content start end_) ;;
    Ok products
  else Raise (ValueError "No JSON found in response").

(** One entry of the fallback list. *)
Definition fallback_product (category : string) (i : Z) : value :=
  VDict
    [ ("name", VStr ("Popular " ++ category ++ " Product " ++ Py.str_of_int (i + 1)));
      ("description", VStr ("High-demand " ++ category ++ " item with proven sales"));
      ("price", VStr ("$" ++ Py.str_of_int (20 + i * 10) ++ "-"
                        ++ Py.str_of_int (30 + i * 10)));
      ("profit_score", VInt (70 + i * 5));
      ("demand", VStr "High") ].

(** The list the [except] branch returns. *)
Definition fallback_products (category : string) (count : Z) : value :=
  VList (map (fallback_product category) (range count)).

(** [get_product_ideas].  The [st.error] call of the handler only displays
    the exception. *)
Definition get_product_ideas (category : string) (count : Z) : value :=
  try_except (ideas_try category count)
             (fun _ => fallback_products category count).

(** *** Legitimacy *)

Definition legitimacy_prompt (distributor : Distributor.t) : string :=
  lines
    [ "Analyze this distributor's legitimacy as a wholesale supplier:";
      "";
      "Name: " ++ Distributor.name distributor;
      "Location: " ++ Distributor.location distributor;
      "Website: " ++ Distributor.website distributor;
      "Legitimacy Signals: "
        ++ Py.join ", " (get (Distributor.legitimacy_signals distributor) []);
      "Has 3PL/Prep Services: "
        ++ Py.str_of_bool (get (Distributor.has_3pl distributor) false);
      "";
      "Provide:";
      "1. Legitimacy score (0-100)";
      "2. Brief reasoning (2-3 sentences)";
      "3. Risk level (Low/Medium/High)";
      "";
      "Format as JSON: {" ++ Py.dq ++ "score" ++ Py.dq ++ ": <number>, "
        ++ Py.dq ++ "reasoning" ++ Py.dq ++ ": " ++ Py.dq ++ "<text>" ++ Py.dq
        ++ ", " ++ Py.dq ++ "risk" ++ Py.dq ++ ": " ++ Py.dq ++ "<level>"
        ++ Py.dq ++ "}" ].

(** The body of the [try] of [verify_legitimacy]. *)
Definition legitimacy_try (distributor : Distributor.t) : result value :=
  response <- ask 500 (legitimacy_prompt distributor) ;;
  content <- first_text response ;;
  let start := Py.find content "{" in
  let end_ := (Py.rfind content "}" + 1)%Z in
  if negb (start =? -1)%Z && (end_ >? start)%Z then
    result <- json_loads (Py.slice content start end_) ;;
    Ok result
  else Raise (ValueError "No JSON found").

(** The verdict the [except] branch returns. *)
Definition fallback_verdict (distributor : Distributor.t) : value :=
  let signals := get (Distributor.legitimacy_signals distributor) [] in
  let score := (50 + Z.of_nat (List.length signals) * 10)%Z in
  VDict
    [ ("score", VInt (Z.min score 95));
      ("reasoning",
       VStr ("Distributor has " ++ Py.str_of_int (Z.of_nat (List.length signals))
               ++ " verification signals including "
               ++ Py.join ", " (firstn 2 signals) ++ "."));
      ("risk", VStr (if (score >? 70)%Z then "Low" else "Medium")) ].

Definition verify_legitimacy (distributor : Distributor.t) : value :=
  try_except (legitimacy_try distributor)
             (fun _ => fallback_verdict distributor).

(** *** Outreach email *)

Definition email_prompt (product : Product.t) (distributor : Distributor.t)
           (user_info : UserInfo.t) : string :=
  lines
    [ "Generate a professional B2B outreach email for wholesale sourcing.";
      "";
      "Context:";
      "- I'm an e-commerce business owner looking to source: "
        ++ Product.name product;
      "- Contacting: " ++ Distributor.name distributor
        ++ " (" ++ Distributor.location distributor ++ ")";
      "- My business: "
        ++ get (UserInfo.business_name user_info) "My E-commerce Business";
      "- Target: " ++ get (UserInfo.monthly_volume user_info) "500-1000"
        ++ " units/month";
      "";
      "The email should:";
      "1. Introduce my business professionally";
      "2. Express interest in " ++ Product.name product;
      "3. Ask about: wholesale pricing, MOQ, shipping to prep centers/3PL, lead times";
      "4. Be concise (under 200 words)";
      "5. Professional but friendly tone";
      "";
      "Write just the email body (no subject line). Use my name: "
        ++ get (UserInfo.name user_info) "Business Owner" ].

(** The body of the [try] of [generate_outreach_email]. *)
Definition email_try (product : Product.t) (distributor : Distributor.t)
           (user_info : UserInfo.t) : result string :=
  response <- ask 800 (email_prompt product distributor user_info) ;;
  content <- first_text response ;;
  Ok (Py.strip content).

(** The static email the [except] branch returns. *)
Definition fallback_email (product : Product.t) (distributor : Distributor.t)
           (user_info : UserInfo.t) : string :=
  lines
    [ "Hello " ++ Distributor.name distributor ++ " Team,";
      "";
      "I'm reaching out from "
        ++ get (UserInfo.business_name user_info) "my e-commerce business"
        ++ " regarding wholesale sourcing for " ++ Product.name product ++ ".";
      "";
      "We're currently scaling our operations and looking for reliable suppliers who can provide:";
      "- Competitive wholesale pricing";
      "- Flexible MOQ options";
      "- Shipping to our prep center/3PL facility";
      "- Consistent inventory availability";
      "";
      "Could you please share your current pricing and terms for this product?";
      "";
      "Best regards,";
      get (UserInfo.name user_info) "Business Owner" ].

Definition generate_outreach_email (product : Product.t)
           (distributor : Distributor.t) (user_info : UserInfo.t) : string :=
  try_except (email_try product distributor user_info)
             (fun _ => fallback_email product distributor user_info).

End Operations.

(** ** The presentation of a result *)

(** The colour of the displayed legitimacy score:
    ["green" if score >= 75 else "orange" if score >= 50 else "red"]. *)
Definition score_color (score : Z) : string :=
  if (score >=? 75)%Z then "green"
  else if (score >=? 50)%Z then "orange"
  else "red".

(** The four keyed entries the page makes for product [idx] and supplier
    [dist_idx]: the email button, the session flag it sets, the text area
    and the copy button. *)
Inductive widget : Type :=
| EmailButton
| ShowEmailFlag
| EmailText
| CopyButton.

Definition key_prefix (w : widget) : string :=
  match w with
  | EmailButton => "email_"
  | ShowEmailFlag => "show_email_"
  | EmailText => "email_text_"
  | CopyButton => "copy_"
  end.

(** [f"email_{idx}_{dist_idx}"] and its three siblings; the indices are
    those of [enumerate]. *)
Definition widget_key (w : widget) (idx dist_idx : nat) : string :=
  key_prefix w ++ Py.str_of_int (Z.of_nat idx) ++ "_"
    ++ Py.str_of_int (Z.of_nat dist_idx).

(** * Vocabulary of the specification *)




(** The profit score of a product entry lies between [lo] and [hi]. *)
Definition profit_within (lo hi : Z) (entry : value) : Prop :=
  exists z, field "profit_score" entry = Some (VInt z) /\ (lo <= z <= hi)%Z.


(** [kw] occurs in [text] as a case-insensitive substring. *)
Definition occurs_in (kw text : string) : Prop :=
  exists pre post, Py.lower text = pre ++ Py.lower kw ++ post.

(** The entry [(kw, cats)] of the keyword table is matched by a category. *)
Definition matched_by (category kw : string) (cats : list string) : Prop :=
  In (kw, cats) CATEGORY_MAP /\ occurs_in kw category.

(** The supplier list of a key, empty for a key the catalog does not have. *)
Definition suppliers_of (D : catalog) (key : string) : list Distributor.t :=
  match lookup key D with
  | Some suppliers => suppliers
  | None => []
  end.

(** The concatenation the supplier finder truncates, written as a map over
    the resolved keys. *)
Definition concatenation (D : catalog) (cats : list string) : list Distributor.t :=
  flat_map (suppliers_of D) cats.

(** The number of legitimacy signals of a supplier record. *)
Definition signal_count (distributor : Distributor.t) : Z :=
  Z.of_nat (List.length (get (Distributor.legitimacy_signals distributor) [])).

(** A verdict whose score is an integer between [lo] and [hi]. *)
Definition score_within (lo hi : Z) (v : value) : Prop :=
  exists z, field "score" v = Some (VInt z) /\ (lo <= z <= hi)%Z.

(** The price range of entry [i] of the fallback list, read off the
    specification's template. *)
Definition price_as_specified (i : Z) : string :=
  "$" ++ Py.str_of_int (20 + 10 * i) ++ " - $" ++ Py.str_of_int (30 + 10 * i).

(** [response.content[0].text] of what the client answered. *)
Definition reply_text (reply : result response) : result string :=
  response <- reply ;; first_text response.

(** The failures of an operation that looks for JSON between [opening] and
    [closing] in the reply: the request raised or the reply has no text; no
    JSON is found; the text found is not JSON. *)
Inductive json_failure (opening closing : string) (reply : result response)
  : Prop :=
| request_failed (e : exception) :
    reply_text reply = Raise e -> json_failure opening closing reply
| json_missing (content : string) :
    reply_text reply = Ok content ->
    (Py.find content opening = -1
     \/ Py.rfind content closing + 1 <= Py.find content opening)%Z ->
    json_failure opening closing reply
| json_malformed (content : string) :
    reply_text reply = Ok content ->
    Json.loads (Py.slice content (Py.find content opening)
                         (Py.rfind content closing + 1)) = None ->
    json_failure opening closing reply.

(** The elements of a list value. *)
Definition elements (v : value) : list value :=
  match v with
  | VList l => l
  | _ => []
  end.

(** The path of the catalog file. *)
Definition catalog_path : string := "data/mock_distributors.json".

(** A client that answers every request with one text block. *)
Definition answering (content : string) : request -> result response :=
  fun _ => Ok {| blocks := [ {| text := Some content |} ] |}.

(** A client whose every request raises. *)
Definition failing : request -> result response :=
  fun _ => Raise (APIError "service unavailable").

(** The response text of the specification's extraction example. *)
Definition example_text : string :=
  "Here is the data: [{" ++ Py.dq ++ "name" ++ Py.dq ++ ":" ++ Py.dq ++ "X"
    ++ Py.dq ++ "}] thanks".

(** A response text whose score lies outside 0..100. *)
Definition overscored_text : string :=
  "{" ++ Py.dq ++ "score" ++ Py.dq ++ ": 150}".

(** A supplier record with three signals, and a small catalog. *)
Definition acme : Distributor.t :=
  Distributor.mk "Acme Wholesale" "Austin, TX" "https://acme.example"
                 "sales@acme.example"
                 (Some ["BBB Accredited"; "10+ years"; "Verified address"])
                 (Some true).

Definition sample_catalog : catalog :=
  [ ("electronics", [acme]) ].



(** Every character of the text is a decimal digit. *)
Fixpoint all_digits (s : string) : bool :=
  match s with
  | EmptyString => true
  | String c r => Json.is_digit c && all_digits r
  end.

(** * Properties *)

(** ** Strings *)

Section StringFacts.

Lemma prefix_iff (p s : string) :
  prefix p s = true <-> exists t, s = p ++ t.
Proof.
  revert s; induction p as [|a p IH]; intros s.
  - split; [intros _; now exists s | now destruct s].
  - destruct s as [|b s]; simpl.
    + split; [discriminate | intros [t Ht]; discriminate].
    + destruct (ascii_dec a b) as [->|Hab].
      * rewrite IH. split; intros [t Ht]; exists t.
        -- now rewrite Ht.
        -- now injection Ht.
      * split; [discriminate | intros [t Ht]; injection Ht; congruence].
Qed.

Lemma prefix_app (p t : string) : prefix p (p ++ t) = true.
Proof. apply prefix_iff; now exists t. Qed.

Lemma contains_unfold (sub s : string) :
  Py.contains sub s
  = if prefix sub s then true
    else match s with
         | EmptyString => false
         | String _ r => Py.contains sub r
         end.
Proof. now destruct s. Qed.

Lemma contains_cons (sub : string) (a : ascii) (s : string) :
  Py.contains sub s = true -> Py.contains sub (String a s) = true.
Proof.
  intros H. rewrite contains_unfold, H. now destruct (prefix sub (String a s)).
Qed.

(** [sub in s] holds exactly when [s] splits around an occurrence of
    [sub]. *)
Lemma contains_iff (sub s : string) :
  Py.contains sub s = true <-> exists pre post, s = pre ++ sub ++ post.
Proof.
  split.
  - induction s as [|a s IH]; rewrite contains_unfold;
      destruct (prefix sub _) eqn:E; try discriminate.
    + intros _. apply prefix_iff in E as [t Ht]. now exists "", t.
    + intros _. apply prefix_iff in E as [t Ht]. now exists "", t.
    + intros H. destruct (IH H) as (pre & post & ->).
      now exists (String a pre), post.
  - intros (pre & post & ->). induction pre as [|a pre IH].
    + simpl. now rewrite contains_unfold, prefix_app.
    + apply contains_cons, IH.
Qed.

Lemma length_app (s t : string) :
  String.length (s ++ t) = (String.length s + String.length t)%nat.
Proof. induction s; simpl; congruence. Qed.

Lemma substring_app_mid (pre mid post : string) :
  substring (String.length pre) (String.length mid) (pre ++ mid ++ post) = mid.
Proof.
  induction pre as [|a pre IH]; simpl.
  - induction mid as [|b mid IHm]; simpl.
    + now destruct post.
    + now rewrite IHm.
  - exact IH.
Qed.

(** A slice with bounds inside the string cuts out the middle part. *)
Lemma slice_mid (pre mid post : string) :
  Py.slice (pre ++ mid ++ post)
           (Z.of_nat (String.length pre))
           (Z.of_nat (String.length pre) + Z.of_nat (String.length mid))
  = mid.
Proof.
  unfold Py.slice, Py.clamp_index. rewrite !length_app.
  set (p := String.length pre). set (m := String.length mid).
  set (q := String.length post).
  destruct (Z.ltb_spec (Z.of_nat p) 0); [lia|].
  destruct (Z.ltb_spec (Z.of_nat p + Z.of_nat m) 0); [lia|].
  replace (Z.to_nat (Z.min (Z.of_nat p) (Z.of_nat (p + (m + q))))) with p by lia.
  replace (Z.to_nat (Z.min (Z.of_nat p + Z.of_nat m) (Z.of_nat (p + (m + q)))
                     - Z.min (Z.of_nat p) (Z.of_nat (p + (m + q))))) with m by lia.
  apply substring_app_mid.
Qed.

Variable c : ascii.
Let needle : string := String c EmptyString.

Lemma prefix_needle (s : string) :
  prefix needle s = match s with
                    | String a _ => Ascii.eqb c a
                    | EmptyString => false
                    end.
Proof.
  destruct s as [|a s]; simpl; [reflexivity|].
  destruct (ascii_dec c a) as [->|H].
  - rewrite Ascii.eqb_refl. now destruct s.
  - apply Ascii.eqb_neq in H. now rewrite H.
Qed.

Lemma contains_needle_cons (a : ascii) (s : string) :
  Py.contains needle (String a s) = Ascii.eqb c a || Py.contains needle s.
Proof.
  change (Py.contains needle (String a s))
    with (if prefix needle (String a s) then true else Py.contains needle s).
  rewrite prefix_needle. now destruct (Ascii.eqb c a).
Qed.

(** [find] of a character that does not occur answers [-1]. *)
Lemma find_from_absent (s : string) (i : Z) :
  Py.contains needle s = false -> Py.find_from needle s i = (-1)%Z.
Proof.
  revert i; induction s as [|a s IH]; intros i.
  - reflexivity.
  - rewrite contains_needle_cons. intros H.
    apply orb_false_elim in H as [Ha Hs].
    change (Py.find_from needle (String a s) i)
      with (if prefix needle (String a s) then i
            else Py.find_from needle s (i + 1)).
    rewrite prefix_needle, Ha. now apply IH.
Qed.

(** [find] answers the position of the first occurrence. *)
Lemma find_from_first (pre rest : string) (i : Z) :
  Py.contains needle pre = false ->
  Py.find_from needle (pre ++ String c rest) i
  = (i + Z.of_nat (String.length pre))%Z.
Proof.
  revert i; induction pre as [|a pre IH]; intros i.
  - intros _. simpl (_ ++ _).
    change (Py.find_from needle (String c rest) i)
      with (if prefix needle (String c rest) then i
            else Py.find_from needle rest (i + 1)).
    rewrite prefix_needle, Ascii.eqb_refl. simpl. lia.
  - rewrite contains_needle_cons. intros H.
    apply orb_false_elim in H as [Ha Hs]. simpl (_ ++ _).
    change (Py.find_from needle (String a (pre ++ String c rest)) i)
      with (if prefix needle (String a (pre ++ String c rest)) then i
            else Py.find_from needle (pre ++ String c rest) (i + 1)).
    rewrite prefix_needle, Ha, IH by assumption.
    simpl String.length. lia.
Qed.

Lemma find_from_range (s : string) (i : Z) :
  Py.find_from needle s i = (-1)%Z \/ (i <= Py.find_from needle s i)%Z.
Proof.
  revert i; induction s as [|a s IH]; intros i.
  - now left.
  - change (Py.find_from needle (String a s) i)
      with (if prefix needle (String a s) then i
            else Py.find_from needle s (i + 1)).
    destruct (prefix needle (String a s)).
    + right; lia.
    + destruct (IH (i + 1)%Z) as [->|H]; [now left | right; lia].
Qed.

Lemma rfind_from_cons (sub : string) (a : ascii) (r : string) (i : Z) :
  Py.rfind_from sub (String a r) i
  = if (Py.rfind_from sub r (i + 1) =? -1)%Z
    then (if prefix sub (String a r) then i else (-1)%Z)
    else Py.rfind_from sub r (i + 1).
Proof. reflexivity. Qed.

(** [rfind] of a character that does not occur answers [-1]. *)
Lemma rfind_from_absent (s : string) (i : Z) :
  Py.contains needle s = false -> Py.rfind_from needle s i = (-1)%Z.
Proof.
  revert i; induction s as [|a s IH]; intros i.
  - reflexivity.
  - rewrite contains_needle_cons. intros H.
    apply orb_false_elim in H as [Ha Hs].
    rewrite rfind_from_cons, (IH _ Hs), prefix_needle, Ha.
    reflexivity.
Qed.

(** [rfind] answers the position of the last occurrence. *)
Lemma rfind_from_last (pre post : string) (i : Z) :
  (0 <= i)%Z ->
  Py.contains needle post = false ->
  Py.rfind_from needle (pre ++ String c post) i
  = (i + Z.of_nat (String.length pre))%Z.
Proof.
  revert i; induction pre as [|a pre IH]; intros i Hi Hpost.
  - simpl (_ ++ _).
    rewrite rfind_from_cons, (rfind_from_absent _ _ Hpost), prefix_needle,
      Ascii.eqb_refl.
    simpl. lia.
  - simpl (_ ++ _). rewrite rfind_from_cons.
    rewrite IH by (assumption || lia).
    destruct (Z.eqb_spec (i + 1 + Z.of_nat (String.length pre)) (-1)); [lia|].
    simpl String.length. lia.
Qed.

End StringFacts.

(** ** The decoder's fuel *)

Module JsonFacts.
Import Json.

Lemma skip_ws_le (s : string) : (String.length (skip_ws s) <= String.length s)%nat.
Proof.
  induction s as [|c r IH]; simpl; [lia|].
  destruct (is_ws c); simpl; lia.
Qed.

Lemma drop_le (n : nat) (s : string) : (String.length (drop n s) <= String.length s)%nat.
Proof.
  revert s; induction n as [|n IH]; intros [|c r]; simpl; try lia.
  specialize (IH r). lia.
Qed.

Lemma span_digits_len (s ds rest : string) :
  span_digits s = (ds, rest) -> String.length s = (String.length ds + String.length rest)%nat.
Proof.
  revert ds rest; induction s as [|c r IH]; simpl; intros ds rest.
  - intros [= <- <-]. reflexivity.
  - destruct (is_digit c).
    + destruct (span_digits r) as [ds' rest'] eqn:E. intros [= <- <-].
      simpl. now rewrite (IH _ _ eq_refl).
    + intros [= <- <-]. reflexivity.
Qed.

Lemma scan_frac_le (s frac rest : string) :
  scan_frac s = (frac, rest) -> (String.length rest <= String.length s)%nat.
Proof.
  unfold scan_frac. destruct s as [|c r]; [intros [= <- <-]; lia|].
  destruct (Ascii.eqb c "."); [|intros [= <- <-]; lia].
  destruct (span_digits r) as [ds rest'] eqn:E.
  apply span_digits_len in E.
  destruct ds; intros [= <- <-]; simpl in *; lia.
Qed.

Lemma scan_exp_le (s exp rest : string) :
  scan_exp s = (exp, rest) -> (String.length rest <= String.length s)%nat.
Proof.
  unfold scan_exp. destruct s as [|e r]; [intros [= <- <-]; lia|].
  destruct (_ || _); [|intros [= <- <-]; lia].
  destruct r as [|sg r1].
  - simpl. intros [= <- <-]. simpl. lia.
  - destruct (_ || _).
    + destruct (span_digits r1) as [ds rest'] eqn:E.
      apply span_digits_len in E.
      destruct ds; intros [= <- <-]; simpl in *; lia.
    + destruct (span_digits (String sg r1)) as [ds rest'] eqn:E.
      apply span_digits_len in E.
      destruct ds; intros [= <- <-]; simpl in *; lia.
Qed.

Lemma match_number_lt (s : string) (v : value) (rest : string) :
  match_number s = Some (v, rest) -> (String.length rest < String.length s)%nat.
Proof.
  unfold match_number.
  set (p := match s with
            | String c r => if Ascii.eqb c "-" then (true, r) else (false, s)
            | EmptyString => (false, s)
            end).
  assert (Hp : (String.length (snd p) <= String.length s)%nat).
  { unfold p. destruct s as [|c r]; simpl; [lia|].
    destruct (Ascii.eqb c "-"); simpl; lia. }
  destruct p as [neg s1]. simpl in Hp.
  destruct s1 as [|d r]; [discriminate|].
  destruct (is_digit d); [|discriminate].
  set (q := if Ascii.eqb d "0" then (EmptyString, r) else span_digits r).
  assert (Hq : (String.length (snd q) <= String.length r)%nat).
  { unfold q. destruct (Ascii.eqb d "0"); simpl; [lia|].
    destruct (span_digits r) as [ds rest'] eqn:E.
    apply span_digits_len in E. simpl. lia. }
  destruct q as [ds rest0]. simpl in Hq.
  destruct (scan_frac rest0) as [frac rest1] eqn:Ef. apply scan_frac_le in Ef.
  destruct (scan_exp rest1) as [exp rest2] eqn:Ee. apply scan_exp_le in Ee.
  simpl in Hp.
  destruct frac; destruct exp; intros [= <- <-]; lia.
Qed.

Lemma prepend_inv (pre : string) (r : option (string * string))
      (str rest : string) :
  prepend pre r = Some (str, rest) -> exists str', r = Some (str', rest).
Proof.
  destruct r as [[str' rest']|]; simpl; [|discriminate].
  intros [= <- <-]. now exists str'.
Qed.

Lemma scanstring_lt_bounded (n : nat) :
  forall s str rest,
    (String.length s <= n)%nat ->
    scanstring s = Some (str, rest) -> (String.length rest < String.length s)%nat.
Proof.
  induction n as [|n IH]; intros s str rest Hn.
  - destruct s; [discriminate | simpl in Hn; lia].
  - destruct s as [|c r]; [discriminate|].
    unfold scanstring; fold scanstring.
    repeat match goal with
           | |- context [if ?b then _ else _] => destruct b
           | |- context [match ?x with
                         | EmptyString => _
                         | String _ _ => _
                         end] => is_var x; destruct x
           | |- context [match hex4 ?a ?b ?c ?d with _ => _ end] =>
               destruct (hex4 a b c d)
           | |- context [match unescape ?e with _ => _ end] =>
               destruct (unescape e)
           end;
      intros H; try discriminate;
      try (injection H as <- <-; cbn [String.length]; lia);
      apply prepend_inv in H as [str' H];
      apply IH in H; cbn [String.length] in *; lia.
Qed.

Lemma scanstring_lt (s str rest : string) :
  scanstring s = Some (str, rest) -> (String.length rest < String.length s)%nat.
Proof. apply (scanstring_lt_bounded (String.length s)). lia. Qed.

Ltac walk :=
  repeat match goal with
         | |- context [if ?b then _ else _] => destruct b
         | |- context [match skip_ws ?r with _ => _ end] =>
             let E := fresh "Ews" in
             pose proof (skip_ws_le r);
             destruct (skip_ws r) eqn:E
         | |- context [match scanstring ?r with _ => _ end] =>
             let E := fresh "Estr" in
             destruct (scanstring r) as [[? ?]|] eqn:E;
             [apply scanstring_lt in E|]
         | |- context [match match_number ?r with _ => _ end] =>
             let E := fresh "Enum" in
             destruct (match_number r) as [[? ?]|] eqn:E;
             [apply match_number_lt in E|]
         end.

(** Every successful scan consumes at least one character. *)
Lemma scan_consumes (fuel : nat) :
  (forall s v rest,
      scan_once fuel s = Some (v, rest) -> (String.length rest < String.length s)%nat)
  /\ (forall s acc v rest,
         array_loop fuel s acc = Some (v, rest) -> (String.length rest < String.length s)%nat)
  /\ (forall s acc v rest,
         object_loop fuel s acc = Some (v, rest) -> (String.length rest < String.length s)%nat).
Proof.
  induction fuel as [|fuel (IHs & IHa & IHo)].
  - repeat split; intros; discriminate.
  - repeat split.
    + intros s v rest. destruct s as [|c r]; [discriminate|].
      cbn [scan_once].
      pose proof (drop_le 3 r). pose proof (drop_le 4 r).
      pose proof (drop_le 2 r). pose proof (drop_le 7 r).
      pose proof (drop_le 8 r).
      walk; intros H'; try discriminate;
        try (injection H' as <- <-; simpl in *; lia);
        try (apply IHo in H'; simpl in *; lia);
        try (apply IHa in H'; simpl in *; lia).
    + intros s acc v rest. cbn [array_loop].
      destruct (scan_once fuel s) as [[v0 rest0]|] eqn:E; [|discriminate].
      apply IHs in E.
      walk; intros H'; try discriminate;
        try (injection H' as <- <-; simpl in *; lia);
        try (apply IHa in H';
             match type of H' with
             | context [skip_ws ?x] => pose proof (skip_ws_le x)
             end;
             simpl in *; lia).
    + intros s acc v rest. cbn [object_loop].
      destruct (scanstring s) as [[key rest0]|] eqn:E; [|discriminate].
      apply scanstring_lt in E.
      pose proof (skip_ws_le rest0) as Hws0.
      destruct (skip_ws rest0) as [|colon r] eqn:E0; [discriminate|].
      destruct (Ascii.eqb colon ":"); [|discriminate].
      pose proof (skip_ws_le r) as Hws1.
      destruct (scan_once fuel (skip_ws r)) as [[v0 rest1]|] eqn:E1;
        [|discriminate].
      apply IHs in E1.
      walk; intros H'; try discriminate;
        try (injection H' as <- <-; simpl in *; lia);
        try (apply IHo in H'; simpl in *; lia).
Qed.

(** A scan that succeeds with some fuel succeeds, with the same result,
    with any fuel above twice the length of the text. *)
Lemma fuel_enough (fuel' : nat) :
  (forall s x fuel,
      scan_once fuel' s = Some x ->
      (2 * String.length s <= fuel)%nat -> scan_once fuel s = Some x)
  /\ (forall s acc x fuel,
         array_loop fuel' s acc = Some x ->
         (2 * String.length s + 1 <= fuel)%nat -> array_loop fuel s acc = Some x)
  /\ (forall s acc x fuel,
         object_loop fuel' s acc = Some x ->
         (2 * String.length s + 1 <= fuel)%nat -> object_loop fuel s acc = Some x).
Proof.
  induction fuel' as [|fuel' (IHs & IHa & IHo)].
  - repeat split; intros; discriminate.
  - repeat split.
    + intros s x fuel H Hfuel. destruct s as [|c r]; [discriminate|].
      destruct fuel as [|fuel]; [simpl in Hfuel; lia|].
      revert H. cbn [scan_once].
      walk; intros H'; try exact H';
        (apply IHo || apply IHa); try exact H'; simpl in *; lia.
    + intros s acc x fuel H Hfuel.
      destruct fuel as [|fuel]; [lia|].
      revert H. cbn [array_loop].
      destruct (scan_once fuel' s) as [[v rest]|] eqn:E; [|discriminate].
      rewrite (IHs s _ fuel E ltac:(lia)).
      apply (proj1 (scan_consumes fuel')) in E.
      walk; intros H'; try exact H'.
      apply IHa; [exact H'|].
      match goal with
      | |- context [skip_ws ?y] => pose proof (skip_ws_le y)
      end.
      simpl in *; lia.
    + intros s acc x fuel H Hfuel.
      destruct fuel as [|fuel]; [lia|].
      revert H. cbn [object_loop].
      destruct (scanstring s) as [[key rest0]|] eqn:E; [|discriminate].
      apply scanstring_lt in E.
      pose proof (skip_ws_le rest0) as Hws0.
      destruct (skip_ws rest0) as [|colon r] eqn:E0; [discriminate|].
      destruct (Ascii.eqb colon ":"); [|discriminate].
      pose proof (skip_ws_le r) as Hws1.
      destruct (scan_once fuel' (skip_ws r)) as [[v rest1]|] eqn:E1;
        [|discriminate].
      rewrite (IHs (skip_ws r) _ fuel E1 ltac:(simpl in *; lia)).
      apply (proj1 (scan_consumes fuel')) in E1.
      walk; intros H'; try exact H'.
      apply IHo; [exact H'|]. simpl in *; lia.
Qed.

(** The fuel [loads] gives the decoder is enough: whatever any amount of
    fuel decodes, [loads] decodes. *)
Theorem loads_fuel_enough (s : string) (fuel : nat) (v : value) (rest : string) :
  scan_once fuel (skip_ws s) = Some (v, rest) ->
  skip_ws rest = EmptyString ->
  loads s = Some v.
Proof.
  intros H Hrest. unfold loads.
  rewrite (proj1 (fuel_enough fuel) (skip_ws s) (v, rest) (2 * String.length s + 2)%nat H).
  - now rewrite Hrest.
  - pose proof (skip_ws_le s). lia.
Qed.

End JsonFacts.

Lemma append_assoc (s t u : string) : (s ++ t) ++ u = s ++ t ++ u.
Proof. induction s; simpl; congruence. Qed.

(** The first opening and the last closing character delimit the slice the
    extraction parses. *)
Lemma extraction_span (c1 c2 : ascii) (pre mid post : string) :
  let opening := String c1 EmptyString in
  let closing := String c2 EmptyString in
  let content := pre ++ String c1 (mid ++ String c2 post) in
  Py.contains opening pre = false ->
  Py.contains closing post = false ->
  Py.find content opening = Z.of_nat (String.length pre)
  /\ (Py.rfind content closing + 1
      = Z.of_nat (String.length pre)
        + Z.of_nat (String.length (String c1 (mid ++ closing))))%Z
  /\ Py.slice content (Py.find content opening) (Py.rfind content closing + 1)
     = String c1 (mid ++ closing).
Proof.
  intros opening closing content Hpre Hpost.
  assert (Hf : Py.find content opening = Z.of_nat (String.length pre)).
  { unfold Py.find, content, opening.
    now rewrite find_from_first by assumption. }
  assert (Hr : (Py.rfind content closing + 1
                = Z.of_nat (String.length pre)
                  + Z.of_nat (String.length (String c1 (mid ++ closing))))%Z).
  { unfold Py.rfind, content, closing.
    replace (pre ++ String c1 (mid ++ String c2 post))
      with ((pre ++ String c1 mid) ++ String c2 post)
      by (rewrite append_assoc; reflexivity).
    rewrite rfind_from_last by (assumption || lia).
    simpl String.length. rewrite !length_app. simpl String.length. lia. }
  repeat split; try assumption.
  rewrite Hf, Hr. unfold content.
  replace (String c1 (mid ++ String c2 post))
    with (String c1 (mid ++ closing) ++ post)
    by (simpl; rewrite append_assoc; reflexivity).
  apply slice_mid.
Qed.

(** ** The [try] blocks *)

Section TryBlocks.

Variable create : request -> result response.

Lemma bind_ok {A : Type} (c : result A) : (x <- c ;; Ok x) = c.
Proof. now destruct c. Qed.

Lemma ideas_try_raise (category : string) (count : Z) (e : exception) :
  reply_text (ask create 2000 (ideas_prompt category count)) = Raise e ->
  ideas_try create category count = Raise e.
Proof.
  unfold ideas_try, reply_text.
  destruct (ask create 2000 _) as [r|e']; simpl; [|congruence].
  destruct (first_text r); simpl; congruence.
Qed.

Lemma ideas_try_text (category : string) (count : Z) (content : string) :
  reply_text (ask create 2000 (ideas_prompt category count)) = Ok content ->
  ideas_try create category count
  = if negb (Py.find content "[" =? -1)%Z
       && (Py.rfind content "]" + 1 >? Py.find content "[")%Z
    then json_loads (Py.slice content (Py.find content "[")
                              (Py.rfind content "]" + 1))
    else Raise (ValueError "No JSON found in response").
Proof.
  unfold ideas_try, reply_text.
  destruct (ask create 2000 _) as [r|e']; simpl; [|discriminate].
  destruct (first_text r); simpl; [|discriminate].
  intros [= ->]. now rewrite bind_ok.
Qed.

Lemma legitimacy_try_raise (distributor : Distributor.t) (e : exception) :
  reply_text (ask create 500 (legitimacy_prompt distributor)) = Raise e ->
  legitimacy_try create distributor = Raise e.
Proof.
  unfold legitimacy_try, reply_text.
  destruct (ask create 500 _) as [r|e']; simpl; [|congruence].
  destruct (first_text r); simpl; congruence.
Qed.

Lemma legitimacy_try_text (distributor : Distributor.t) (content : string) :
  reply_text (ask create 500 (legitimacy_prompt distributor)) = Ok content ->
  legitimacy_try create distributor
  = if negb (Py.find content "{" =? -1)%Z
       && (Py.rfind content "}" + 1 >? Py.find content "{")%Z
    then json_loads (Py.slice content (Py.find content "{")
                              (Py.rfind content "}" + 1))
    else Raise (ValueError "No JSON found").
Proof.
  unfold legitimacy_try, reply_text.
  destruct (ask create 500 _) as [r|e']; simpl; [|discriminate].
  destruct (first_text r); simpl; [|discriminate].
  intros [= ->]. now rewrite bind_ok.
Qed.

(** A failure of the ideation path makes its [try] block raise. *)
Lemma ideas_failure_raises (category : string) (count : Z) :
  json_failure "[" "]" (ask create 2000 (ideas_prompt category count)) ->
  exists e, ideas_try create category count = Raise e.
Proof.
  intros [e H | content H Hm | content H Hm].
  - exists e. now apply ideas_try_raise.
  - rewrite (ideas_try_text _ _ _ H).
    destruct (Z.eqb_spec (Py.find content "[") (-1)); simpl; [eauto|].
    destruct (Z.gtb_spec (Py.rfind content "]" + 1) (Py.find content "["));
      [lia | eauto].
  - rewrite (ideas_try_text _ _ _ H). unfold json_loads. rewrite Hm.
    destruct (_ && _); eauto.
Qed.

(** A failure of the legitimacy path makes its [try] block raise. *)
Lemma legitimacy_failure_raises (distributor : Distributor.t) :
  json_failure "{" "}" (ask create 500 (legitimacy_prompt distributor)) ->
  exists e, legitimacy_try create distributor = Raise e.
Proof.
  intros [e H | content H Hm | content H Hm].
  - exists e. now apply legitimacy_try_raise.
  - rewrite (legitimacy_try_text _ _ H).
    destruct (Z.eqb_spec (Py.find content "{") (-1)); simpl; [eauto|].
    destruct (Z.gtb_spec (Py.rfind content "}" + 1) (Py.find content "{"));
      [lia | eauto].
  - rewrite (legitimacy_try_text _ _ H). unfold json_loads. rewrite Hm.
    destruct (_ && _); eauto.
Qed.

(** Without a failure the [try] block returns what the decoder built. *)
Lemma ideas_try_ok_inv (category : string) (count : Z) (v : value) :
  ideas_try create category count = Ok v ->
  exists content,
    reply_text (ask create 2000 (ideas_prompt category count)) = Ok content
    /\ Json.loads (Py.slice content (Py.find content "[")
                            (Py.rfind content "]" + 1)) = Some v.
Proof.
  destruct (reply_text (ask create 2000 (ideas_prompt category count)))
    as [content|e] eqn:H.
  - rewrite (ideas_try_text _ _ _ H). exists content. split; [reflexivity|].
    destruct (_ && _); [|discriminate].
    unfold json_loads in *. destruct (Json.loads _); congruence.
  - rewrite (ideas_try_raise _ _ _ H). discriminate.
Qed.

Lemma legitimacy_try_ok_inv (distributor : Distributor.t) (v : value) :
  legitimacy_try create distributor = Ok v ->
  exists content,
    reply_text (ask create 500 (legitimacy_prompt distributor)) = Ok content
    /\ Json.loads (Py.slice content (Py.find content "{")
                            (Py.rfind content "}" + 1)) = Some v.
Proof.
  destruct (reply_text (ask create 500 (legitimacy_prompt distributor)))
    as [content|e] eqn:H.
  - rewrite (legitimacy_try_text _ _ H). exists content. split; [reflexivity|].
    destruct (_ && _); [|discriminate].
    unfold json_loads in *. destruct (Json.loads _); congruence.
  - rewrite (legitimacy_try_raise _ _ H). discriminate.
Qed.

(** A failure of the ideation path ends in the fallback list. *)
Lemma ideas_failure_fallback (category : string) (count : Z) :
  json_failure "[" "]" (ask create 2000 (ideas_prompt category count)) ->
  get_product_ideas create category count = fallback_products category count.
Proof.
  intros Hfail. destruct (ideas_failure_raises category count Hfail) as [e He].
  unfold get_product_ideas. now rewrite He.
Qed.

(** A failure of the legitimacy path ends in the fallback verdict. *)
Lemma legitimacy_failure_fallback (distributor : Distributor.t) :
  json_failure "{" "}" (ask create 500 (legitimacy_prompt distributor)) ->
  verify_legitimacy create distributor = fallback_verdict distributor.
Proof.
  intros Hfail. destruct (legitimacy_failure_raises distributor Hfail) as [e He].
  unfold verify_legitimacy. now rewrite He.
Qed.

End TryBlocks.

(** ** The fallback legitimacy scorer *)

Lemma fallback_verdict_fields (distributor : Distributor.t) :
  let n := signal_count distributor in
  let signals := get (Distributor.legitimacy_signals distributor) [] in
  let score := Z.min (50 + 10 * n) 95 in
  field "score" (fallback_verdict distributor) = Some (VInt score)
  /\ field "risk" (fallback_verdict distributor)
     = Some (VStr (if (score >? 70)%Z then "Low" else "Medium"))
  /\ field "reasoning" (fallback_verdict distributor)
     = Some (VStr ("Distributor has " ++ Py.str_of_int n
                     ++ " verification signals including "
                     ++ Py.join ", " (firstn 2 signals) ++ ".")).
Proof.
  intros n signals score. subst score n signals.
  unfold fallback_verdict, signal_count.
  set (len := Z.of_nat (List.length _)).
  cbv [field dict_get String.eqb Ascii.eqb Bool.eqb]. repeat split.
  - replace (50 + len * 10)%Z with (50 + 10 * len)%Z by lia. reflexivity.
  - destruct (Z.gtb_spec (50 + len * 10) 70);
      destruct (Z.gtb_spec (Z.min (50 + 10 * len) 95) 70);
      reflexivity || lia.
Qed.

(** C1: whenever the [try] block of [verify_legitimacy] raises, the verdict
    returned has score [min(50 + 10 * n, 95)] for [n] legitimacy signals,
    risk "Low" when that score exceeds 70 and "Medium" otherwise, and the
    templated reasoning with the signal count and the first two signals;
    so no signal gives 50 and "Medium", three signals give 80 and "Low",
    and six or more give 95. *)
Theorem fallback_score_formula
        (create : request -> result response) (distributor : Distributor.t)
        (e : exception) :
  legitimacy_try create distributor = Raise e ->
  let n := signal_count distributor in
  let signals := get (Distributor.legitimacy_signals distributor) [] in
  let verdict := verify_legitimacy create distributor in
  let score := Z.min (50 + 10 * n) 95 in
  field "score" verdict = Some (VInt score)
  /\ field "risk" verdict
     = Some (VStr (if (score >? 70)%Z then "Low" else "Medium"))
  /\ field "reasoning" verdict
     = Some (VStr ("Distributor has " ++ Py.str_of_int n
                     ++ " verification signals including "
                     ++ Py.join ", " (firstn 2 signals) ++ "."))
  /\ (n = 0%Z ->
      field "score" verdict = Some (VInt 50)
      /\ field "risk" verdict = Some (VStr "Medium"))
  /\ (n = 3%Z ->
      field "score" verdict = Some (VInt 80)
      /\ field "risk" verdict = Some (VStr "Low"))
  /\ ((6 <= n)%Z -> field "score" verdict = Some (VInt 95)).
Proof.
  intros Hraise n signals verdict score.
  assert (Hv : verdict = fallback_verdict distributor).
  { unfold verdict, verify_legitimacy. now rewrite Hraise. }
  rewrite Hv.
  destruct (fallback_verdict_fields distributor) as (Hs & Hr & Ht).
  fold n in Hs, Hr, Ht. fold signals in Ht. fold score in Hs, Hr.
  repeat split; try assumption.
  - rewrite Hs. unfold score. rewrite H. reflexivity.
  - rewrite Hr. unfold score. rewrite H. reflexivity.
  - rewrite Hs. unfold score. rewrite H. reflexivity.
  - rewrite Hr. unfold score. rewrite H. reflexivity.
  - intros H6. rewrite Hs. replace score with 95%Z by (unfold score; lia).
    reflexivity.
Qed.

(** Three signals and a failing client: 80 and "Low". *)
Lemma fallback_score_formula_witness :
  field "score" (verify_legitimacy failing acme) = Some (VInt 80)
  /\ field "risk" (verify_legitimacy failing acme) = Some (VStr "Low").
Proof.
  exact (proj1 (proj2 (proj2 (proj2 (proj2
           (fallback_score_formula failing acme
              (APIError "service unavailable") eq_refl)))))
         eq_refl).
Defined.

(** ** Degrading to the fallback *)

(** C2: every failure of the three AI operations (the request raises, the
    reply carries no text, no JSON is found in the text, or the text found
    is not JSON) is caught, and the operation returns its fallback: the
    synthetic product list, the fallback verdict, the static email. *)
Theorem fallback_on_failure (create : request -> result response) :
  (forall category count,
      json_failure "[" "]" (ask create 2000 (ideas_prompt category count)) ->
      get_product_ideas create category count
      = fallback_products category count)
  /\ (forall distributor,
         json_failure "{" "}" (ask create 500 (legitimacy_prompt distributor)) ->
         verify_legitimacy create distributor = fallback_verdict distributor)
  /\ (forall product distributor user_info e,
         reply_text (ask create 800 (email_prompt product distributor user_info))
         = Raise e ->
         generate_outreach_email create product distributor user_info
         = fallback_email product distributor user_info).
Proof.
  repeat split.
  - apply ideas_failure_fallback.
  - apply legitimacy_failure_fallback.
  - intros product distributor user_info e.
    unfold generate_outreach_email, email_try, reply_text.
    destruct (ask create 800 _) as [r|e']; simpl; [|reflexivity].
    destruct (first_text r); simpl; [discriminate | reflexivity].
Qed.

(** A client whose request raises. *)
Lemma fallback_on_failure_witness :
  get_product_ideas failing "pet toys" 3 = fallback_products "pet toys" 3.
Proof.
  exact (proj1 (fallback_on_failure failing) "pet toys" 3%Z
           (request_failed "[" "]" (ask failing 2000 (ideas_prompt "pet toys" 3))
                           (APIError "service unavailable") eq_refl)).
Defined.

(** Each operation returns the fallback or what its [try] block returned:
    no exception leaves it. *)
Lemma operations_total (create : request -> result response) :
  (forall category count,
      get_product_ideas create category count = fallback_products category count
      \/ ideas_try create category count
         = Ok (get_product_ideas create category count))
  /\ (forall distributor,
         verify_legitimacy create distributor = fallback_verdict distributor
         \/ legitimacy_try create distributor
            = Ok (verify_legitimacy create distributor))
  /\ (forall product distributor user_info,
         generate_outreach_email create product distributor user_info
         = fallback_email product distributor user_info
         \/ email_try create product distributor user_info
            = Ok (generate_outreach_email create product distributor user_info)).
Proof.
  repeat split; intros.
  - unfold get_product_ideas. destruct (ideas_try _ _ _); simpl; auto.
  - unfold verify_legitimacy. destruct (legitimacy_try _ _); simpl; auto.
  - unfold generate_outreach_email. destruct (email_try _ _ _ _); simpl; auto.
Qed.

(** ** The score of a verdict *)

(** The claim of C3 as stated fails: a reply whose JSON carries the score
    150 is returned as it is. *)
Lemma verdict_score_unchecked :
  ~ (forall create distributor,
        score_within 0 100 (verify_legitimacy create distributor)).
Proof.
  intros H. destruct (H (answering overscored_text) acme) as (z & Hz & Hrange).
  vm_compute in Hz. injection Hz as <-. lia.
Qed.

(** C3, amended: on the fallback path the score is an integer between 50
    and 95, hence within 0..100; on the parse-success path the verdict is
    the decoded JSON value itself, whose score is neither checked nor
    clamped. *)
Theorem verdict_score_by_path
        (create : request -> result response) (distributor : Distributor.t) :
  (forall e,
      legitimacy_try create distributor = Raise e ->
      score_within 50 95 (verify_legitimacy create distributor)
      /\ score_within 0 100 (verify_legitimacy create distributor))
  /\ (forall v,
         legitimacy_try create distributor = Ok v ->
         verify_legitimacy create distributor = v
         /\ exists content,
             reply_text (ask create 500 (legitimacy_prompt distributor))
             = Ok content
             /\ Json.loads (Py.slice content (Py.find content "{")
                                     (Py.rfind content "}" + 1)) = Some v).
Proof.
  split.
  - intros e He.
    assert (Hv : verify_legitimacy create distributor = fallback_verdict distributor)
      by (unfold verify_legitimacy; now rewrite He).
    rewrite Hv. destruct (fallback_verdict_fields distributor) as (Hs & _).
    assert (0 <= signal_count distributor)%Z by (unfold signal_count; lia).
    split; eexists; (split; [exact Hs | lia]).
  - intros v Hv. split.
    + unfold verify_legitimacy. now rewrite Hv.
    + now apply legitimacy_try_ok_inv.
Qed.

(** Both paths, on the reply with score 150 and on a failing client. *)
Lemma verdict_score_by_path_witness :
  verify_legitimacy (answering overscored_text) acme
  = VDict [("score", VInt 150)]
  /\ score_within 0 100 (verify_legitimacy failing acme).
Proof.
  split.
  - exact (proj1 (proj2 (verdict_score_by_path (answering overscored_text) acme)
                    (VDict [("score", VInt 150)]) eq_refl)).
  - exact (proj2 (proj1 (verdict_score_by_path failing acme)
                    (APIError "service unavailable") eq_refl)).
Defined.

(** ** JSON extraction *)

Section Extraction.

Variable create : request -> result response.

Lemma span_condition (c1 c2 : ascii) (pre mid post : string) :
  let opening := String c1 EmptyString in
  let closing := String c2 EmptyString in
  let content := pre ++ String c1 (mid ++ String c2 post) in
  Py.contains opening pre = false ->
  Py.contains closing post = false ->
  negb (Py.find content opening =? -1)%Z
  && (Py.rfind content closing + 1 >? Py.find content opening)%Z = true.
Proof.
  intros opening closing content Hpre Hpost.
  destruct (extraction_span c1 c2 pre mid post Hpre Hpost) as (Hf & Hr & _).
  fold opening closing content in Hf, Hr. rewrite Hr, Hf.
  simpl String.length.
  destruct (Z.eqb_spec (Z.of_nat (String.length pre)) (-1)); [lia|].
  simpl. apply Z.gtb_lt. lia.
Qed.

(** Without the opening or without the closing character in the text,
    nothing is extracted. *)
Lemma no_span_condition (c1 c2 : ascii) (content : string) :
  let opening := String c1 EmptyString in
  let closing := String c2 EmptyString in
  Py.contains opening content = false
  \/ Py.contains closing content = false ->
  negb (Py.find content opening =? -1)%Z
  && (Py.rfind content closing + 1 >? Py.find content opening)%Z = false.
Proof.
  intros opening closing H. subst opening closing. unfold Py.find, Py.rfind.
  destruct H as [H|H].
  - now rewrite (find_from_absent c1 content 0 H).
  - rewrite (rfind_from_absent c2 content 0 H).
    destruct (find_from_range c1 content 0) as [E|E].
    + now rewrite E.
    + apply andb_false_iff. right.
      destruct (Z.gtb_spec (-1 + 1)
                  (Py.find_from (String c1 EmptyString) content 0));
        [lia | reflexivity].
Qed.

(** C8: the extraction parses the text from the first opening bracket
    (brace) to the last closing bracket (brace) of the reply; on the
    example reply it yields the one-element array; a reply without
    brackets (braces), or whose extracted text does not parse, leads to
    the fallback. *)
Theorem json_extraction :
  (forall category count pre mid post,
      reply_text (ask create 2000 (ideas_prompt category count))
      = Ok (pre ++ "[" ++ mid ++ "]" ++ post) ->
      Py.contains "[" pre = false ->
      Py.contains "]" post = false ->
      ideas_try create category count = json_loads ("[" ++ mid ++ "]"))
  /\ (forall distributor pre mid post,
         reply_text (ask create 500 (legitimacy_prompt distributor))
         = Ok (pre ++ "{" ++ mid ++ "}" ++ post) ->
         Py.contains "{" pre = false ->
         Py.contains "}" post = false ->
         legitimacy_try create distributor = json_loads ("{" ++ mid ++ "}"))
  /\ (forall category count,
         reply_text (ask create 2000 (ideas_prompt category count))
         = Ok example_text ->
         get_product_ideas create category count
         = VList [VDict [("name", VStr "X")]])
  /\ (forall category count content,
         reply_text (ask create 2000 (ideas_prompt category count))
         = Ok content ->
         Py.contains "[" content = false \/ Py.contains "]" content = false ->
         get_product_ideas create category count
         = fallback_products category count)
  /\ (forall distributor content,
         reply_text (ask create 500 (legitimacy_prompt distributor))
         = Ok content ->
         Py.contains "{" content = false \/ Py.contains "}" content = false ->
         verify_legitimacy create distributor = fallback_verdict distributor)
  /\ (forall category count content,
         reply_text (ask create 2000 (ideas_prompt category count))
         = Ok content ->
         Json.loads (Py.slice content (Py.find content "[")
                              (Py.rfind content "]" + 1)) = None ->
         get_product_ideas create category count
         = fallback_products category count)
  /\ (forall distributor content,
         reply_text (ask create 500 (legitimacy_prompt distributor))
         = Ok content ->
         Json.loads (Py.slice content (Py.find content "{")
                              (Py.rfind content "}" + 1)) = None ->
         verify_legitimacy create distributor = fallback_verdict distributor).
Proof.
  repeat split.
  - intros category count pre mid post Hreply Hpre Hpost.
    rewrite (ideas_try_text _ _ _ _ Hreply).
    change (pre ++ "[" ++ mid ++ "]" ++ post)
      with (pre ++ String "[" (mid ++ String "]" post)).
    rewrite (span_condition "[" "]" pre mid post Hpre Hpost).
    now destruct (extraction_span "[" "]" pre mid post Hpre Hpost)
      as (_ & _ & ->).
  - intros distributor pre mid post Hreply Hpre Hpost.
    rewrite (legitimacy_try_text _ _ _ Hreply).
    change (pre ++ "{" ++ mid ++ "}" ++ post)
      with (pre ++ String "{" (mid ++ String "}" post)).
    rewrite (span_condition "{" "}" pre mid post Hpre Hpost).
    now destruct (extraction_span "{" "}" pre mid post Hpre Hpost)
      as (_ & _ & ->).
  - intros category count Hreply. unfold get_product_ideas.
    rewrite (ideas_try_text _ _ _ _ Hreply). reflexivity.
  - intros category count content Hreply Hno. unfold get_product_ideas.
    rewrite (ideas_try_text _ _ _ _ Hreply).
    now rewrite (no_span_condition "[" "]" content Hno).
  - intros distributor content Hreply Hno. unfold verify_legitimacy.
    rewrite (legitimacy_try_text _ _ _ Hreply).
    now rewrite (no_span_condition "{" "}" content Hno).
  - intros category count content Hreply Hbad.
    apply ideas_failure_fallback. now apply json_malformed with content.
  - intros distributor content Hreply Hbad.
    apply legitimacy_failure_fallback. now apply json_malformed with content.
Qed.

End Extraction.

(** The example reply, and a reply without brackets. *)
Lemma json_extraction_witness :
  get_product_ideas (answering example_text) "pet toys" 3
  = VList [VDict [("name", VStr "X")]]
  /\ get_product_ideas (answering "no data today") "pet toys" 3
     = fallback_products "pet toys" 3.
Proof.
  split.
  - exact (proj1 (proj2 (proj2 (json_extraction (answering example_text))))
             "pet toys" 3%Z eq_refl).
  - exact (proj1 (proj2 (proj2 (proj2 (json_extraction (answering "no data today")))))
             "pet toys" 3%Z "no data today" eq_refl (or_introl eq_refl)).
Defined.

(** ** The catalog loader *)

(** C9: the loader returns the empty mapping when the file cannot be read
    and when its text is not JSON, and the decoded value unchanged
    otherwise; it always returns. *)
Theorem load_distributors_degrades (read_file : string -> option string) :
  (read_file catalog_path = None ->
   load_distributors read_file = VDict [])
  /\ (forall text,
         read_file catalog_path = Some text ->
         Json.loads text = None ->
         load_distributors read_file = VDict [])
  /\ (forall text parsed,
         read_file catalog_path = Some text ->
         Json.loads text = Some parsed ->
         load_distributors read_file = parsed).
Proof.
  unfold load_distributors, open_and_read, json_loads, catalog_path.
  repeat split.
  - intros ->. reflexivity.
  - intros text -> Hbad. simpl. now rewrite Hbad.
  - intros text parsed -> Hok. simpl. now rewrite Hok.
Qed.

(** A missing file, a malformed file and a well-formed one. *)
Lemma load_distributors_degrades_witness :
  load_distributors (fun _ => None) = VDict []
  /\ load_distributors (fun _ => Some "{not json") = VDict []
  /\ load_distributors (fun _ => Some "{}") = VDict [].
Proof.
  split; [|split].
  - exact (proj1 (load_distributors_degrades (fun _ => None)) eq_refl).
  - exact (proj1 (proj2 (load_distributors_degrades (fun _ => Some "{not json")))
             "{not json" eq_refl eq_refl).
  - exact (proj2 (proj2 (load_distributors_degrades (fun _ => Some "{}")))
             "{}" (VDict []) eq_refl eq_refl).
Defined.

(** ** The category resolver *)

Section Resolver.

Variable DISTRIBUTORS : catalog.
Variable category : string.

(** The test of the first loop is the specification's substring test. *)
Lemma keyword_test (kw : string) :
  Py.contains (Py.lower kw) (Py.lower category) = true <-> occurs_in kw category.
Proof. apply contains_iff. Qed.

(** The first loop over any table: what it appends to [acc]. *)
Lemma first_loop_In (table : list (string * list string))
      (acc : list string) (k : string) :
  In k (fold_left
          (fun dist_categories '(key, cats) =>
             if Py.contains (Py.lower key) (Py.lower category)
             then (dist_categories ++ cats)%list
             else dist_categories)
          table acc)
  <-> In k acc
      \/ exists kw cats,
          In (kw, cats) table /\ occurs_in kw category /\ In k cats.
Proof.
  revert acc; induction table as [|[key cats] table IH]; intros acc; simpl.
  - split; [auto | intros [H | (kw & cs & [] & _)]; exact H].
  - rewrite IH. destruct (Py.contains _ _) eqn:E.
    + rewrite in_app_iff. split.
      * intros [[H|H] | (kw & cs & Hin & Hocc & Hk)]; [auto | | ].
        -- right. exists key, cats. repeat split; auto.
           now apply keyword_test.
        -- right. exists kw, cs. auto.
      * intros [H | (kw & cs & [Heq|Hin] & Hocc & Hk)]; [auto | | ].
        -- injection Heq as <- <-. auto.
        -- right. exists kw, cs. auto.
    + split.
      * intros [H | (kw & cs & Hin & Hocc & Hk)]; [auto|].
        right. exists kw, cs. auto.
      * intros [H | (kw & cs & [Heq|Hin] & Hocc & Hk)]; [auto | | ].
        -- injection Heq as <- <-. apply keyword_test in Hocc. congruence.
        -- right. exists kw, cs. auto.
Qed.

Lemma matched_categories_In (k : string) :
  In k (matched_categories category)
  <-> exists kw cats, matched_by category kw cats /\ In k cats.
Proof.
  unfold matched_categories, matched_by. rewrite first_loop_In. split.
  - intros [[] | (kw & cats & H1 & H2 & H3)]. exists kw, cats. auto.
  - intros (kw & cats & [H1 H2] & H3). right. exists kw, cats. auto.
Qed.

(** Every entry of the keyword table names at least one key. *)
Lemma table_entries_nonempty (kw : string) (cats : list string) :
  In (kw, cats) CATEGORY_MAP -> cats <> [].
Proof.
  unfold CATEGORY_MAP. simpl.
  intros H; repeat (destruct H as [H|H]; [injection H as <- <-; discriminate|]).
  destruct H.
Qed.

(** No keyword of the table occurs in the empty category. *)
Lemma empty_category_matches_nothing (kw : string) (cats : list string) :
  In (kw, cats) CATEGORY_MAP -> ~ occurs_in kw "".
Proof.
  intros Hin Hocc. apply contains_iff in Hocc. revert Hocc.
  unfold CATEGORY_MAP in Hin. simpl in Hin.
  repeat (destruct Hin as [Hin|Hin]; [injection Hin as <- <-; discriminate|]).
  destruct Hin.
Qed.

(** C4: when no keyword of the table occurs in the category as a
    case-insensitive substring, as in the empty category, the resolver
    returns all the keys of the catalog, so a non-empty catalog resolves
    to a non-empty key list. *)
Theorem unmatched_category_resolves_to_all_keys :
  (forall kw cats, In (kw, cats) CATEGORY_MAP -> ~ occurs_in kw category) ->
  dist_categories DISTRIBUTORS category = keys DISTRIBUTORS
  /\ (DISTRIBUTORS <> [] -> dist_categories DISTRIBUTORS category <> []).
Proof.
  intros Hnone.
  assert (Hm : matched_categories category = []).
  { destruct (matched_categories category) as [|k l] eqn:E; [reflexivity|].
    assert (Hk : In k (matched_categories category)) by (rewrite E; now left).
    apply matched_categories_In in Hk as (kw & cats & [Hin Hocc] & _).
    destruct (Hnone kw cats Hin Hocc). }
  unfold dist_categories. rewrite Hm. split; [reflexivity|].
  intros Hne. destruct DISTRIBUTORS; [congruence | discriminate].
Qed.

(** C5: when at least one keyword of the table occurs in the category as
    a case-insensitive substring, the resolved keys are exactly the keys
    the matched keywords map to. *)
Theorem matched_category_resolves_to_union :
  (exists kw cats, matched_by category kw cats) ->
  dist_categories DISTRIBUTORS category = matched_categories category
  /\ forall k,
      In k (dist_categories DISTRIBUTORS category)
      <-> exists kw cats, matched_by category kw cats /\ In k cats.
Proof.
  intros (kw & cats & Hm).
  assert (Heq : dist_categories DISTRIBUTORS category
                = matched_categories category).
  { unfold dist_categories.
    destruct (matched_categories category) as [|k l] eqn:E; [|reflexivity].
    destruct cats as [|k cats].
    - destruct Hm as [Hin _]. now apply table_entries_nonempty in Hin.
    - assert (Hk : In k (matched_categories category)).
      { apply matched_categories_In. exists kw, (k :: cats).
        split; [assumption | now left]. }
      rewrite E in Hk. destruct Hk. }
  split; [assumption|].
  intros k. rewrite Heq. apply matched_categories_In.
Qed.

End Resolver.

(** The empty category on the sample catalog. *)
Lemma unmatched_category_resolves_to_all_keys_witness :
  dist_categories sample_catalog "" = ["electronics"]
  /\ (sample_catalog <> [] -> dist_categories sample_catalog "" <> []).
Proof.
  exact (unmatched_category_resolves_to_all_keys sample_catalog ""
           empty_category_matches_nothing).
Defined.

(** The keyword "wireless" occurs in "wireless earbuds". *)
Lemma wireless_earbuds_matched :
  exists kw cats, matched_by "wireless earbuds" kw cats.
Proof.
  exists "wireless", ["electronics"]. split.
  - unfold CATEGORY_MAP. simpl. tauto.
  - now exists "", " earbuds".
Defined.

(** The category "wireless earbuds" on the sample catalog. *)
Lemma matched_category_resolves_to_union_witness :
  dist_categories sample_catalog "wireless earbuds"
  = matched_categories "wireless earbuds"
  /\ forall k,
      In k (dist_categories sample_catalog "wireless earbuds")
      <-> exists kw cats, matched_by "wireless earbuds" kw cats /\ In k cats.
Proof.
  exact (matched_category_resolves_to_union sample_catalog "wireless earbuds"
           wireless_earbuds_matched).
Defined.

(** ** The supplier finder *)

Section FinderFacts.

Variable DISTRIBUTORS : catalog.

(** The second loop appends to [found] the supplier lists of the keys, in
    the order of the keys. *)
Lemma second_loop (cats : list string) (found : list Distributor.t) :
  fold_left
    (fun found cat =>
       match lookup cat DISTRIBUTORS with
       | Some suppliers => (found ++ suppliers)%list
       | None => found
       end)
    cats found
  = (found ++ concatenation DISTRIBUTORS cats)%list.
Proof.
  revert found; induction cats as [|cat cats IH]; intros found; simpl.
  - now rewrite app_nil_r.
  - rewrite IH. unfold suppliers_of.
    destruct (lookup cat DISTRIBUTORS); [now rewrite <- app_assoc|reflexivity].
Qed.

Lemma collect_concatenation (cats : list string) :
  collect DISTRIBUTORS cats = concatenation DISTRIBUTORS cats.
Proof. unfold collect. now rewrite second_loop. Qed.

Lemma first_four_firstn (found : list Distributor.t) :
  first_four found = firstn 4 found.
Proof. now destruct found. Qed.

Lemma find_in_firstn (cats : list string) :
  find_in DISTRIBUTORS cats = firstn 4 (concatenation DISTRIBUTORS cats).
Proof.
  unfold find_in. now rewrite first_four_firstn, collect_concatenation.
Qed.

(** C6: on any resolved keys the finder returns the first four elements
    (all, if fewer) of the concatenation, in key order, of the supplier
    lists of the keys the catalog has; never more than four suppliers;
    and the empty list when the catalog has none of the keys. *)
Theorem find_in_first_four (cats : list string) :
  find_in DISTRIBUTORS cats = firstn 4 (concatenation DISTRIBUTORS cats)
  /\ (List.length (concatenation DISTRIBUTORS cats) <= 4 ->
      find_in DISTRIBUTORS cats = concatenation DISTRIBUTORS cats)%nat
  /\ (List.length (find_in DISTRIBUTORS cats) <= 4)%nat
  /\ (forall category product_name,
         List.length (find_distributors DISTRIBUTORS category product_name)
         <= 4)%nat
  /\ ((forall cat, In cat cats -> lookup cat DISTRIBUTORS = None) ->
      find_in DISTRIBUTORS cats = []).
Proof.
  repeat split.
  - apply find_in_firstn.
  - intros Hlen. rewrite find_in_firstn. now apply firstn_all2.
  - rewrite find_in_firstn. apply firstn_le_length.
  - intros category product_name. unfold find_distributors.
    rewrite find_in_firstn. apply firstn_le_length.
  - intros Habsent. rewrite find_in_firstn.
    replace (concatenation DISTRIBUTORS cats) with (@nil Distributor.t);
      [reflexivity|].
    symmetry. unfold concatenation.
    induction cats as [|cat rest IH]; simpl; [reflexivity|].
    unfold suppliers_of at 1. rewrite (Habsent cat (or_introl eq_refl)).
    apply IH. intros c Hc. apply Habsent. now right.
Qed.

End FinderFacts.

(** With the empty catalog, which a failed load leaves, nothing is found. *)
Lemma empty_catalog_finds_nothing (category product_name : string) :
  find_distributors [] category product_name = [].
Proof.
  unfold find_distributors. rewrite find_in_firstn.
  unfold concatenation.
  induction (dist_categories [] category) as [|cat cats IH]; [reflexivity|].
  simpl. unfold suppliers_of at 1. simpl. exact IH.
Qed.

(** Two keys the sample catalog does not have. *)
Lemma find_in_first_four_witness :
  find_in sample_catalog ["toys"; "books"] = [].
Proof.
  refine (proj2 (proj2 (proj2 (proj2
            (find_in_first_four sample_catalog ["toys"; "books"])))) _).
  intros cat [<- | [<- | []]]; reflexivity.
Defined.

(** ** Duplicate keys *)

Lemma doubled_list_has_duplicate (l : list Distributor.t) :
  (1 <= List.length l <= 3)%nat -> ~ NoDup (firstn 4 (l ++ l)).
Proof.
  intros Hlen Hnd.
  destruct l as [|a [|b [|c [|d l]]]]; simpl in Hlen; try lia; simpl in Hnd.
  - inversion Hnd as [|? ? Hnotin _]. apply Hnotin. now left.
  - inversion Hnd as [|? ? Hnotin _]. apply Hnotin. right. now left.
  - inversion Hnd as [|? ? Hnotin _]. apply Hnotin. right. right. now left.
Qed.

(** C10: the category "wireless phone" contains two keywords that map to
    the key "electronics"; the resolver lists that key twice, the finder
    then reads the suppliers of "electronics" twice, and with one to three
    such suppliers its result (of at most four) repeats a supplier. *)
Theorem duplicate_keys_repeat_suppliers :
  exists category,
    occurs_in "phone" category
    /\ occurs_in "wireless" category
    /\ (forall D, dist_categories D category = ["electronics"; "electronics"])
    /\ (forall D suppliers product_name,
           lookup "electronics" D = Some suppliers ->
           find_distributors D category product_name
           = firstn 4 (suppliers ++ suppliers)
           /\ ((1 <= List.length suppliers <= 3)%nat ->
               ~ NoDup (find_distributors D category product_name)))
    /\ (forall product_name,
           find_distributors sample_catalog category product_name
           = [acme; acme]).
Proof.
  exists "wireless phone".
  assert (Hfind : forall D suppliers product_name,
             lookup "electronics" D = Some suppliers ->
             find_distributors D "wireless phone" product_name
             = firstn 4 (suppliers ++ suppliers)).
  { intros D suppliers product_name Hl. unfold find_distributors.
    rewrite find_in_firstn.
    change (dist_categories D "wireless phone")
      with ["electronics"; "electronics"].
    unfold concatenation. simpl. unfold suppliers_of. rewrite Hl.
    now rewrite app_nil_r. }
  split; [now exists "wireless ", ""|].
  split; [now exists "", " phone"|].
  split; [reflexivity|].
  split; [|reflexivity].
  intros D suppliers product_name Hl. split; [now apply Hfind|].
  intros Hlen. rewrite (Hfind D suppliers product_name Hl).
  now apply doubled_list_has_duplicate.
Qed.

(** On the sample catalog the one supplier of "electronics" comes twice. *)
Lemma duplicate_keys_repeat_suppliers_witness :
  exists category,
    dist_categories sample_catalog category = ["electronics"; "electronics"]
    /\ find_distributors sample_catalog category "earbuds" = [acme; acme]
    /\ ~ NoDup (find_distributors sample_catalog category "earbuds").
Proof.
  destruct duplicate_keys_repeat_suppliers
    as (category & _ & _ & Hkeys & Hfind & Hsample).
  exists category. split; [apply Hkeys|]. split; [apply Hsample|].
  rewrite Hsample. intros Hnd. inversion Hnd as [|? ? Hnotin _].
  apply Hnotin. now left.
Defined.

(** ** The fallback product list *)

Lemma range_length (count : Z) : List.length (range count) = Z.to_nat count.
Proof. unfold range. now rewrite length_map, length_seq. Qed.

Lemma range_nth (count i : Z) :
  (0 <= i < count)%Z -> nth_error (range count) (Z.to_nat i) = Some i.
Proof.
  intros Hi. unfold range.
  rewrite nth_error_map, nth_error_seq.
  destruct (Nat.ltb_spec (Z.to_nat i) (Z.to_nat count)); [|lia].
  simpl. f_equal. lia.
Qed.

(** A negative count gives no entry, as [range] does. *)
Lemma fallback_products_negative (category : string) (count : Z) :
  (count <= 0)%Z -> fallback_products category count = VList [].
Proof.
  intros H. unfold fallback_products, range.
  now replace (Z.to_nat count) with 0%nat by lia.
Qed.

(** The claim of C7 as stated fails on the price range: the first entry is
    priced "$20-30", which is not the "$20 - $30" of the template. *)
Lemma price_not_as_specified :
  ~ (forall category count i,
        (0 <= i < count)%Z ->
        exists entry,
          nth_error (elements (fallback_products category count)) (Z.to_nat i)
          = Some entry
          /\ field "price" entry = Some (VStr (price_as_specified i))).
Proof.
  intros H.
  destruct (H "pet toys" 3%Z 0%Z ltac:(lia)) as (entry & Hnth & Hprice).
  vm_compute in Hnth. injection Hnth as <-.
  vm_compute in Hprice. discriminate.
Qed.

(** C7, amended: for a count that is not negative the fallback generator
    returns exactly [count] entries, and entry [i] has the name
    "Popular <category> Product <i+1>", the price range "$<20+10i>-<30+10i>"
    (one dollar sign, no blanks), the profit score [70+5i] and the demand
    "High"; for "pet toys" and 3 the names end in 1, 2, 3, the scores are
    70, 75, 80 and every demand is "High". *)
Theorem fallback_products_entries (category : string) (count : Z) :
  (0 <= count)%Z ->
  let products := elements (fallback_products category count) in
  Z.of_nat (List.length products) = count
  /\ (forall i,
         (0 <= i < count)%Z ->
         exists entry,
           nth_error products (Z.to_nat i) = Some entry
           /\ field "name" entry
              = Some (VStr ("Popular " ++ category ++ " Product "
                              ++ Py.str_of_int (i + 1)))
           /\ field "price" entry
              = Some (VStr ("$" ++ Py.str_of_int (20 + 10 * i) ++ "-"
                              ++ Py.str_of_int (30 + 10 * i)))
           /\ field "profit_score" entry = Some (VInt (70 + 5 * i))
           /\ field "demand" entry = Some (VStr "High"))
  /\ map (field "name") (elements (fallback_products "pet toys" 3))
     = [ Some (VStr "Popular pet toys Product 1");
         Some (VStr "Popular pet toys Product 2");
         Some (VStr "Popular pet toys Product 3") ]
  /\ map (field "profit_score") (elements (fallback_products "pet toys" 3))
     = [ Some (VInt 70); Some (VInt 75); Some (VInt 80) ]
  /\ map (field "demand") (elements (fallback_products "pet toys" 3))
     = [ Some (VStr "High"); Some (VStr "High"); Some (VStr "High") ].
Proof.
  intros Hcount products. unfold products, fallback_products. simpl elements.
  split; [|split].
  - rewrite length_map, range_length. lia.
  - intros i Hi. exists (fallback_product category i). split.
    + rewrite nth_error_map, (range_nth count i Hi). reflexivity.
    + unfold fallback_product.
      cbv [field dict_get String.eqb Ascii.eqb Bool.eqb].
      replace (20 + i * 10)%Z with (20 + 10 * i)%Z by lia.
      replace (30 + i * 10)%Z with (30 + 10 * i)%Z by lia.
      replace (70 + i * 5)%Z with (70 + 5 * i)%Z by lia.
      repeat split.
  - repeat split.
Qed.

(** Three entries for "pet toys", the first priced "$20-30". *)
Lemma fallback_products_entries_witness :
  Z.of_nat (List.length (elements (fallback_products "pet toys" 3))) = 3%Z
  /\ exists entry,
      nth_error (elements (fallback_products "pet toys" 3)) 0 = Some entry
      /\ field "price" entry = Some (VStr "$20-30").
Proof.
  destruct (fallback_products_entries "pet toys" 3 ltac:(lia))
    as (Hlen & Hentries & _).
  split; [exact Hlen|].
  destruct (Hentries 0%Z ltac:(lia)) as (entry & Hnth & _ & Hprice & _).
  exists entry. split; [exact Hnth | exact Hprice].
Defined.

(** * Further properties of the code *)

(** ** The supplier finder and the resolver *)

Lemma lower_char_idempotent (c : ascii) :
  Py.lower_char (Py.lower_char c) = Py.lower_char c.
Proof. destruct c as [[] [] [] [] [] [] [] []]; reflexivity. Qed.

Lemma lower_idempotent (s : string) : Py.lower (Py.lower s) = Py.lower s.
Proof.
  induction s as [|c r IH]; simpl; [reflexivity|].
  now rewrite lower_char_idempotent, IH.
Qed.

Lemma lower_app (s t : string) : Py.lower (s ++ t) = Py.lower s ++ Py.lower t.
Proof. induction s as [|c r IH]; simpl; [reflexivity | now rewrite IH]. Qed.

Lemma In_firstn {A : Type} (n : nat) (l : list A) (x : A) :
  In x (firstn n l) -> In x l.
Proof.
  intros H. rewrite <- (firstn_skipn n l). apply in_or_app. now left.
Qed.

Lemma firstn_nil_iff {A : Type} (n : nat) (l : list A) :
  firstn (S n) l = [] <-> l = [].
Proof. destruct l; simpl; split; congruence. Qed.

Lemma flat_map_nil_iff {A B : Type} (f : A -> list B) (l : list A) :
  flat_map f l = [] <-> forall x, In x l -> f x = [].
Proof.
  induction l as [|a l IH]; simpl.
  - split; [intros _ x [] | reflexivity].
  - split.
    + intros H. apply app_eq_nil in H as [Ha Hl].
      intros x [<- | Hx]; [assumption | now apply IH].
    + intros H. rewrite (H a (or_introl eq_refl)). simpl.
      apply IH. intros x Hx. apply H. now right.
Qed.

(** X1: every supplier the finder returns is listed in the catalog under
    one of the resolved keys. *)
Theorem found_suppliers_come_from_catalog
        (D : catalog) (category product_name : string) (s : Distributor.t) :
  In s (find_distributors D category product_name) ->
  exists cat suppliers,
    In cat (dist_categories D category)
    /\ lookup cat D = Some suppliers
    /\ In s suppliers.
Proof.
  unfold find_distributors. rewrite find_in_firstn. intros H.
  apply In_firstn in H. unfold concatenation in H.
  apply in_flat_map in H as (cat & Hcat & Hs).
  unfold suppliers_of in Hs.
  destruct (lookup cat D) as [suppliers|] eqn:E; [|destruct Hs].
  now exists cat, suppliers.
Qed.

(** The supplier of the sample catalog, found for "wireless earbuds". *)
Lemma found_suppliers_come_from_catalog_witness :
  exists cat suppliers,
    In cat (dist_categories sample_catalog "wireless earbuds")
    /\ lookup cat sample_catalog = Some suppliers
    /\ In acme suppliers.
Proof.
  exact (found_suppliers_come_from_catalog sample_catalog "wireless earbuds"
           "earbuds" acme (or_introl eq_refl)).
Defined.



(** X3: the finder returns nothing exactly when no resolved key has a
    supplier in the catalog (the case in which the page shows its
    "No distributors found" warning). *)
Theorem nothing_found_iff
        (D : catalog) (category product_name : string) :
  find_distributors D category product_name = []
  <-> forall cat, In cat (dist_categories D category) -> suppliers_of D cat = [].
Proof.
  unfold find_distributors. rewrite find_in_firstn, firstn_nil_iff.
  apply flat_map_nil_iff.
Qed.

Lemma suppliers_of_tail (k : string) (l : list Distributor.t) (D : catalog)
      (cats : list string) :
  ~ In k cats ->
  flat_map (suppliers_of ((k, l) :: D)) cats = flat_map (suppliers_of D) cats.
Proof.
  induction cats as [|cat cats IH]; simpl; [reflexivity|].
  intros Hnotin. rewrite IH by tauto. f_equal.
  unfold suppliers_of. simpl.
  destruct (String.eqb_spec cat k) as [->|Hne]; [|reflexivity].
  destruct Hnotin. now left.
Qed.

Lemma all_keys_concatenation (D : catalog) :
  NoDup (keys D) -> concatenation D (keys D) = flat_map snd D.
Proof.
  unfold concatenation, keys.
  induction D as [|[k l] D IH]; simpl; [reflexivity|].
  intros Hnd. inversion Hnd as [|? ? Hnotin Hnd']; subst.
  rewrite suppliers_of_tail by assumption.
  rewrite IH by assumption.
  unfold suppliers_of. simpl. now rewrite String.eqb_refl.
Qed.

(** X4: for a category that matches no keyword, on a catalog with distinct
    keys (as a dict has), the finder returns the first four suppliers of
    the whole catalog in file order. *)
Theorem unmatched_category_finds_head_of_catalog
        (D : catalog) (category product_name : string) :
  NoDup (keys D) ->
  (forall kw cats, In (kw, cats) CATEGORY_MAP -> ~ occurs_in kw category) ->
  find_distributors D category product_name = firstn 4 (flat_map snd D).
Proof.
  intros Hnd Hnone. unfold find_distributors. rewrite find_in_firstn.
  assert (Hm : matched_categories category = []).
  { destruct (matched_categories category) as [|k l] eqn:E; [reflexivity|].
    assert (Hk : In k (matched_categories category)) by (rewrite E; now left).
    apply matched_categories_In in Hk as (kw & cats & [Hin Hocc] & _).
    destruct (Hnone kw cats Hin Hocc). }
  unfold dist_categories. rewrite Hm.
  now rewrite all_keys_concatenation.
Qed.

(** The empty category on the sample catalog. *)
Lemma unmatched_category_finds_head_of_catalog_witness :
  find_distributors sample_catalog "" "earbuds" = [acme].
Proof.
  refine (unmatched_category_finds_head_of_catalog sample_catalog "" "earbuds"
            _ empty_category_matches_nothing).
  repeat constructor. intros [].
Defined.

(** The resolved keys of a matching category, by the keywords that occur in
    it: the loop visits the table in its order. *)
Lemma matched_categories_by_keyword (category : string) :
  matched_categories category
  = (repeat "pet_products"
       (Nat.b2n (Py.contains (Py.lower "pet") (Py.lower category)))
     ++ repeat "electronics"
          (Nat.b2n (Py.contains (Py.lower "electronics") (Py.lower category))
           + Nat.b2n (Py.contains (Py.lower "phone") (Py.lower category))
           + Nat.b2n (Py.contains (Py.lower "wireless") (Py.lower category)))
     ++ repeat "health_wellness"
          (Nat.b2n (Py.contains (Py.lower "health") (Py.lower category))
           + Nat.b2n (Py.contains (Py.lower "vitamin") (Py.lower category))
           + Nat.b2n (Py.contains (Py.lower "supplement") (Py.lower category))))%list.
Proof.
  unfold matched_categories, CATEGORY_MAP. cbn [fold_left].
  destruct (Py.contains (Py.lower "pet") _);
    destruct (Py.contains (Py.lower "electronics") _);
    destruct (Py.contains (Py.lower "phone") _);
    destruct (Py.contains (Py.lower "wireless") _);
    destruct (Py.contains (Py.lower "health") _);
    destruct (Py.contains (Py.lower "vitamin") _);
    destruct (Py.contains (Py.lower "supplement") _);
    reflexivity.
Qed.

(** X5: the keys resolved from keywords come grouped in table order, the
    key "pet_products" at most once, then "electronics" and then
    "health_wellness" at most three times each: never more than seven keys,
    and no key outside these three. *)
Theorem matched_categories_shape (category : string) :
  exists p e h,
    matched_categories category
    = (repeat "pet_products" p ++ repeat "electronics" e
       ++ repeat "health_wellness" h)%list
    /\ (p <= 1 /\ e <= 3 /\ h <= 3)%nat
    /\ (List.length (matched_categories category) <= 7)%nat
    /\ (p = 1%nat <-> occurs_in "pet" category).
Proof.
  pose proof (matched_categories_by_keyword category) as E.
  pose proof (keyword_test category "pet") as Hpet.
  set (b1 := Py.contains (Py.lower "pet") _) in *.
  set (b2 := Py.contains (Py.lower "electronics") _) in *.
  set (b3 := Py.contains (Py.lower "phone") _) in *.
  set (b4 := Py.contains (Py.lower "wireless") _) in *.
  set (b5 := Py.contains (Py.lower "health") _) in *.
  set (b6 := Py.contains (Py.lower "vitamin") _) in *.
  set (b7 := Py.contains (Py.lower "supplement") _) in *.
  exists (Nat.b2n b1), (Nat.b2n b2 + Nat.b2n b3 + Nat.b2n b4)%nat,
         (Nat.b2n b5 + Nat.b2n b6 + Nat.b2n b7)%nat.
  split; [exact E|]. rewrite E, !List.length_app, !repeat_length.
  rewrite <- Hpet.
  destruct b1, b2, b3, b4, b5, b6, b7; simpl;
    repeat split; try lia; try discriminate; auto.
Qed.

(** X6: truncation favours the first key: when "pet" occurs in the category
    and the catalog lists four or more suppliers under "pet_products", the
    finder returns the first four of them, whatever else the category
    matches. *)
Theorem pet_suppliers_fill_the_result
        (D : catalog) (category product_name : string)
        (suppliers : list Distributor.t) :
  occurs_in "pet" category ->
  lookup "pet_products" D = Some suppliers ->
  (4 <= List.length suppliers)%nat ->
  find_distributors D category product_name = firstn 4 suppliers.
Proof.
  intros Hpet Hl Hlen. apply keyword_test in Hpet.
  unfold find_distributors. rewrite find_in_firstn.
  unfold dist_categories. rewrite matched_categories_by_keyword.
  rewrite Hpet. cbn [Nat.b2n repeat app].
  unfold concatenation. cbn [flat_map]. unfold suppliers_of at 1. rewrite Hl.
  rewrite firstn_app.
  replace (4 - List.length suppliers)%nat with 0%nat by lia.
  simpl firstn at 2. apply app_nil_r.
Qed.

(** Four pet suppliers and one of electronics, for "wireless pet camera". *)
Lemma pet_suppliers_fill_the_result_witness :
  find_distributors
    [ ("electronics", [acme]); ("pet_products", [acme; acme; acme; acme]) ]
    "wireless pet camera" "camera"
  = [acme; acme; acme; acme].
Proof.
  refine (pet_suppliers_fill_the_result
            [ ("electronics", [acme]); ("pet_products", [acme; acme; acme; acme]) ]
            "wireless pet camera" "camera"
            [acme; acme; acme; acme] _ eq_refl _).
  - now exists "wireless ", " camera".
  - simpl. lia.
Defined.

Lemma occurs_in_trans (kw category category' : string) :
  occurs_in kw category -> occurs_in category category' ->
  occurs_in kw category'.
Proof.
  intros (p & q & Hc) (p' & q' & Hc'). unfold occurs_in.
  exists (p' ++ p), (q ++ q'). rewrite Hc', Hc.
  now rewrite !append_assoc.
Qed.

(** X7: a longer category resolves to at least the same keys: every key
    resolved from the keywords of a category is resolved for any category
    that contains it (in any case) as a substring. *)
Theorem matched_categories_monotone (category category' k : string) :
  occurs_in category category' ->
  In k (matched_categories category) ->
  In k (matched_categories category').
Proof.
  intros Hsub Hk.
  apply matched_categories_In in Hk as (kw & cats & [Hin Hocc] & Hkc).
  apply matched_categories_In. exists kw, cats. repeat split; try assumption.
  now apply occurs_in_trans with category.
Qed.

(** "Vitamin" inside "Organic VITAMIN gummies". *)
Lemma matched_categories_monotone_witness :
  In "health_wellness" (matched_categories "Organic VITAMIN gummies").
Proof.
  refine (matched_categories_monotone "Vitamin" "Organic VITAMIN gummies"
            "health_wellness" _ (or_introl eq_refl)).
  now exists "organic ", " gummies".
Defined.

(** ** What the AI operations return *)

Lemma array_loop_list (fuel : nat) :
  forall s acc v rest,
    Json.array_loop fuel s acc = Some (v, rest) -> exists l, v = VList l.
Proof.
  induction fuel as [|fuel IH]; intros s acc v rest; [discriminate|].
  cbn [Json.array_loop].
  destruct (Json.scan_once fuel s) as [[v0 r0]|]; [|discriminate].
  destruct (Json.skip_ws r0) as [|c r]; [discriminate|].
  destruct (Ascii.eqb c "]"); [intros [= <- <-]; eauto|].
  destruct (Ascii.eqb c ","); [apply IH | discriminate].
Qed.

Lemma object_loop_dict (fuel : nat) :
  forall s acc v rest,
    Json.object_loop fuel s acc = Some (v, rest) -> exists items, v = VDict items.
Proof.
  induction fuel as [|fuel IH]; intros s acc v rest; [discriminate|].
  cbn [Json.object_loop].
  destruct (Json.scanstring s) as [[key r0]|]; [|discriminate].
  destruct (Json.skip_ws r0) as [|colon r]; [discriminate|].
  destruct (Ascii.eqb colon ":"); [|discriminate].
  destruct (Json.scan_once fuel (Json.skip_ws r)) as [[v0 r1]|]; [|discriminate].
  destruct (Json.skip_ws r1) as [|c r2]; [discriminate|].
  destruct (Ascii.eqb c "}"); [intros [= <- <-]; eauto|].
  destruct (Ascii.eqb c ","); [|discriminate].
  destruct (Json.skip_ws r2) as [|q r3]; [discriminate|].
  destruct (Ascii.eqb q Py.dq_char); [apply IH | discriminate].
Qed.

(** A text that starts with a bracket decodes, if at all, to a list. *)
Lemma loads_bracket (r : string) (v : value) :
  Json.loads (String "[" r) = Some v -> exists l, v = VList l.
Proof.
  unfold Json.loads.
  change (Json.skip_ws (String "[" r)) with (String "[" r).
  destruct (2 * String.length (String "[" r) + 2)%nat as [|fuel]; [discriminate|].
  change (Json.scan_once (S fuel) (String "[" r))
    with (match Json.skip_ws r with
          | String c1 r1 =>
              if Ascii.eqb c1 "]" then Some (VList [], r1)
              else Json.array_loop fuel (String c1 r1) []
          | EmptyString => None
          end).
  destruct (Json.skip_ws r) as [|c1 r1]; [discriminate|].
  destruct (Ascii.eqb c1 "]").
  - destruct (Json.skip_ws r1); [intros [= <-]; eauto | discriminate].
  - destruct (Json.array_loop fuel (String c1 r1) []) as [[v' rest]|] eqn:E;
      [|discriminate].
    apply array_loop_list in E as [l ->].
    destruct (Json.skip_ws rest); [intros [= <-]; eauto | discriminate].
Qed.

(** A text that starts with a brace decodes, if at all, to a dict. *)
Lemma loads_brace (r : string) (v : value) :
  Json.loads (String "{" r) = Some v -> exists items, v = VDict items.
Proof.
  unfold Json.loads.
  change (Json.skip_ws (String "{" r)) with (String "{" r).
  destruct (2 * String.length (String "{" r) + 2)%nat as [|fuel]; [discriminate|].
  change (Json.scan_once (S fuel) (String "{" r))
    with (match Json.skip_ws r with
          | String c1 r1 =>
              if Ascii.eqb c1 "}" then Some (VDict [], r1)
              else if Ascii.eqb c1 Py.dq_char then Json.object_loop fuel r1 []
              else None
          | EmptyString => None
          end).
  destruct (Json.skip_ws r) as [|c1 r1]; [discriminate|].
  destruct (Ascii.eqb c1 "}").
  - destruct (Json.skip_ws r1); [intros [= <-]; eauto | discriminate].
  - destruct (Ascii.eqb c1 Py.dq_char); [|discriminate].
    destruct (Json.object_loop fuel r1 []) as [[v' rest]|] eqn:E;
      [|discriminate].
    apply object_loop_dict in E as [items ->].
    destruct (Json.skip_ws rest); [intros [= <-]; eauto | discriminate].
Qed.

Lemma find_from_split (c : ascii) (s : string) (i : Z) :
  Py.find_from (String c EmptyString) s i <> (-1)%Z ->
  exists pre rest,
    s = pre ++ String c rest
    /\ Py.contains (String c EmptyString) pre = false.
Proof.
  revert i; induction s as [|a s IH]; intros i.
  - intros H. now destruct H.
  - change (Py.find_from (String c EmptyString) (String a s) i)
      with (if prefix (String c EmptyString) (String a s) then i
            else Py.find_from (String c EmptyString) s (i + 1)).
    rewrite prefix_needle.
    destruct (Ascii.eqb_spec c a) as [->|Hne].
    + intros _. now exists "", s.
    + intros H. destruct (IH _ H) as (pre & rest & -> & Hpre).
      exists (String a pre), rest. split; [reflexivity|].
      rewrite contains_needle_cons, Hpre.
      apply Ascii.eqb_neq in Hne. now rewrite Hne.
Qed.

Lemma substring_from_occurrence (pre : string) (c : ascii) (rest : string)
      (n : nat) :
  substring (String.length pre) (S n) (pre ++ String c rest)
  = String c (substring 0 n rest).
Proof. induction pre as [|a pre IH]; simpl; [reflexivity | exact IH]. Qed.

(** The slice the extraction takes starts with the opening character. *)
Lemma slice_starts_with_opening (c : ascii) (content : string) (stop : Z) :
  let start := Py.find content (String c EmptyString) in
  start <> (-1)%Z -> (stop > start)%Z ->
  exists r, Py.slice content start stop = String c r.
Proof.
  intros start Hfound Hstop. unfold start, Py.find in *.
  destruct (find_from_split c content 0 Hfound) as (pre & rest & -> & Hpre).
  rewrite find_from_first in * by assumption.
  unfold Py.slice, Py.clamp_index. rewrite length_app. simpl String.length.
  set (p := String.length pre) in *. set (q := String.length rest).
  destruct (Z.ltb_spec (0 + Z.of_nat p) 0); [lia|].
  destruct (Z.ltb_spec stop 0); [lia|].
  replace (Z.to_nat (Z.min (0 + Z.of_nat p) (Z.of_nat (p + S q)))) with p by lia.
  destruct (Z.to_nat (Z.min stop (Z.of_nat (p + S q))
                      - Z.min (0 + Z.of_nat p) (Z.of_nat (p + S q))))
    as [|n] eqn:E; [lia|].
  subst p. rewrite substring_from_occurrence. eauto.
Qed.

(** X8: [get_product_ideas] always returns a list: the decoded text starts
    with a bracket, so it is an array, and the fallback is a list. *)
Theorem get_product_ideas_returns_list
        (create : request -> result response) (category : string) (count : Z) :
  exists products, get_product_ideas create category count = VList products.
Proof.
  unfold get_product_ideas.
  destruct (ideas_try create category count) as [v|e] eqn:E; simpl;
    [|unfold fallback_products; eauto].
  destruct (reply_text (ask create 2000 (ideas_prompt category count)))
    as [content|e] eqn:Hreply.
  - rewrite (ideas_try_text _ _ _ _ Hreply) in E.
    destruct (negb (Py.find content "[" =? -1)%Z) eqn:Hstart; [|discriminate].
    destruct (Py.rfind content "]" + 1 >? Py.find content "[")%Z eqn:Hstop;
      [|discriminate].
    simpl in E. apply negb_true_iff, Z.eqb_neq in Hstart.
    apply Z.gtb_lt in Hstop.
    destruct (slice_starts_with_opening "[" content
                (Py.rfind content "]" + 1) Hstart ltac:(lia)) as [r Hr].
    rewrite Hr in E. unfold json_loads in E.
    destruct (Json.loads (String "[" r)) as [v'|] eqn:Hl; [|discriminate].
    injection E as <-. now apply loads_bracket in Hl.
  - rewrite (ideas_try_raise _ _ _ _ Hreply) in E. discriminate.
Qed.

(** X9: [verify_legitimacy] always returns a dict: the decoded text starts
    with a brace, so it is an object, and the fallback is a dict. *)
Theorem verify_legitimacy_returns_dict
        (create : request -> result response) (distributor : Distributor.t) :
  exists items, verify_legitimacy create distributor = VDict items.
Proof.
  unfold verify_legitimacy.
  destruct (legitimacy_try create distributor) as [v|e] eqn:E; simpl;
    [|unfold fallback_verdict; eauto].
  destruct (reply_text (ask create 500 (legitimacy_prompt distributor)))
    as [content|e] eqn:Hreply.
  - rewrite (legitimacy_try_text _ _ _ Hreply) in E.
    destruct (negb (Py.find content "{" =? -1)%Z) eqn:Hstart; [|discriminate].
    destruct (Py.rfind content "}" + 1 >? Py.find content "{")%Z eqn:Hstop;
      [|discriminate].
    simpl in E. apply negb_true_iff, Z.eqb_neq in Hstart.
    apply Z.gtb_lt in Hstop.
    destruct (slice_starts_with_opening "{" content
                (Py.rfind content "}" + 1) Hstart ltac:(lia)) as [r Hr].
    rewrite Hr in E. unfold json_loads in E.
    destruct (Json.loads (String "{" r)) as [v'|] eqn:Hl; [|discriminate].
    injection E as <-. now apply loads_brace in Hl.
  - rewrite (legitimacy_try_raise _ _ _ Hreply) in E. discriminate.
Qed.

(** ** The fallback verdict and its display *)

Lemma signal_count_nonneg (distributor : Distributor.t) :
  (0 <= signal_count distributor)%Z.
Proof. unfold signal_count. lia. Qed.

Lemma fallback_verdict_on_raise
      (create : request -> result response) (distributor : Distributor.t)
      (e : exception) :
  legitimacy_try create distributor = Raise e ->
  verify_legitimacy create distributor = fallback_verdict distributor.
Proof. intros H. unfold verify_legitimacy. now rewrite H. Qed.

(** X10: on the fallback path the risk is "Low" for three signals or more
    and "Medium" for fewer; "High" is never returned. *)
Theorem fallback_risk_by_signal_count
        (create : request -> result response) (distributor : Distributor.t)
        (e : exception) :
  legitimacy_try create distributor = Raise e ->
  field "risk" (verify_legitimacy create distributor)
  = Some (VStr (if (3 <=? signal_count distributor)%Z then "Low" else "Medium"))
  /\ field "risk" (verify_legitimacy create distributor) <> Some (VStr "High").
Proof.
  intros Hraise. rewrite (fallback_verdict_on_raise _ _ _ Hraise).
  destruct (fallback_verdict_fields distributor) as (_ & Hr & _).
  pose proof (signal_count_nonneg distributor) as Hn.
  rewrite Hr.
  destruct (Z.gtb_spec (Z.min (50 + 10 * signal_count distributor) 95) 70);
    destruct (Z.leb_spec 3 (signal_count distributor));
    try lia; split; reflexivity || discriminate.
Qed.

(** Three signals: "Low". *)
Lemma fallback_risk_by_signal_count_witness :
  field "risk" (verify_legitimacy failing acme) = Some (VStr "Low").
Proof.
  exact (proj1 (fallback_risk_by_signal_count failing acme
                  (APIError "service unavailable") eq_refl)).
Defined.

(** X11: the fallback score never decreases with the number of signals; it
    is [50 + 10 * n] up to four signals and stays at 95 from five on. *)
Theorem fallback_score_saturates (distributor distributor' : Distributor.t) :
  exists z z',
    field "score" (fallback_verdict distributor) = Some (VInt z)
    /\ field "score" (fallback_verdict distributor') = Some (VInt z')
    /\ ((signal_count distributor <= signal_count distributor')%Z -> (z <= z')%Z)
    /\ ((signal_count distributor <= 4)%Z ->
        z = (50 + 10 * signal_count distributor)%Z)
    /\ (z = 95%Z <-> (5 <= signal_count distributor)%Z).
Proof.
  destruct (fallback_verdict_fields distributor) as (Hs & _).
  destruct (fallback_verdict_fields distributor') as (Hs' & _).
  pose proof (signal_count_nonneg distributor).
  pose proof (signal_count_nonneg distributor').
  eexists _, _. split; [exact Hs|]. split; [exact Hs'|].
  repeat split; lia.
Qed.

(** Five signals already reach 95. *)
Lemma fallback_score_saturates_witness :
  field "score"
        (fallback_verdict
           (Distributor.mk "Five" "Reno, NV" "https://five.example"
                           "info@five.example"
                           (Some ["a"; "b"; "c"; "d"; "e"]) None))
  = Some (VInt 95).
Proof.
  destruct (fallback_score_saturates
              (Distributor.mk "Five" "Reno, NV" "https://five.example"
                              "info@five.example"
                              (Some ["a"; "b"; "c"; "d"; "e"]) None)
              acme) as (z & z' & Hz & _ & _ & _ & H95).
  rewrite Hz. f_equal. f_equal. apply H95. vm_compute. discriminate.
Defined.

(** X12: the page never shows a fallback score in red: it is green for three
    signals or more, which is when the risk is "Low", and orange
    otherwise. *)
Theorem fallback_score_color
        (create : request -> result response) (distributor : Distributor.t)
        (e : exception) :
  legitimacy_try create distributor = Raise e ->
  exists z,
    field "score" (verify_legitimacy create distributor) = Some (VInt z)
    /\ score_color z
       = (if (3 <=? signal_count distributor)%Z then "green" else "orange")
    /\ score_color z <> "red"
    /\ (score_color z = "green"
        <-> field "risk" (verify_legitimacy create distributor)
            = Some (VStr "Low")).
Proof.
  intros Hraise. rewrite (fallback_verdict_on_raise _ _ _ Hraise).
  destruct (fallback_verdict_fields distributor) as (Hs & Hr & _).
  pose proof (signal_count_nonneg distributor) as Hn.
  eexists. split; [exact Hs|]. rewrite Hr. unfold score_color.
  set (z := Z.min (50 + 10 * signal_count distributor) 95).
  rewrite !Z.geb_leb.
  destruct (Z.leb_spec 75 z); destruct (Z.leb_spec 50 z);
    destruct (Z.leb_spec 3 (signal_count distributor));
    destruct (Z.gtb_spec z 70);
    try (subst z; lia);
    repeat split; try reflexivity; try discriminate; intros H'; discriminate.
Qed.

(** Three signals: green. *)
Lemma fallback_score_color_witness :
  exists z,
    field "score" (verify_legitimacy failing acme) = Some (VInt z)
    /\ score_color z = "green".
Proof.
  destruct (fallback_score_color failing acme
              (APIError "service unavailable") eq_refl)
    as (z & Hz & Hc & _).
  exists z. split; [exact Hz | exact Hc].
Defined.

(** ** The drafted email *)








(** ** The fallback product list, continued *)

Lemma range_In (count i : Z) : In i (range count) <-> (0 <= i < count)%Z.
Proof.
  unfold range. rewrite in_map_iff. split.
  - intros (n & <- & Hn). apply in_seq in Hn. lia.
  - intros Hi. exists (Z.to_nat i). split; [lia|]. apply in_seq. lia.
Qed.

Lemma fallback_profit_score (category : string) (i : Z) :
  field "profit_score" (fallback_product category i) = Some (VInt (70 + i * 5)).
Proof. reflexivity. Qed.

(** X14: the profit scores of the fallback list start at 70 and grow by 5:
    all of them stay within 100 exactly when at most seven products are
    asked for; from eight products on the last scores exceed 100. *)
Theorem fallback_profit_scores_bound (category : string) (count : Z) :
  Forall (profit_within 70 (Z.max 70 (65 + 5 * count)))
         (elements (fallback_products category count))
  /\ (Forall (profit_within 70 100) (elements (fallback_products category count))
      <-> (count <= 7)%Z).
Proof.
  unfold fallback_products. simpl elements. rewrite !Forall_map, !Forall_forall.
  split; [|split].
  - intros i Hi. apply range_In in Hi. eexists.
    split; [apply fallback_profit_score | lia].
  - intros H. destruct (Z.le_gt_cases count 7) as [|Hbig]; [assumption|].
    destruct (H 7%Z) as (z & Hz & Hrange); [apply range_In; lia|].
    rewrite fallback_profit_score in Hz. injection Hz as <-. lia.
  - intros Hsmall i Hi. apply range_In in Hi. eexists.
    split; [apply fallback_profit_score | lia].
Qed.

(** X15: a count of zero or less gives the empty list, as [range] does:
    no error and no entry. *)
Theorem fallback_products_none (category : string) (count : Z) :
  (count <= 0)%Z ->
  elements (fallback_products category count) = []
  /\ forall create e,
      ideas_try create category count = Raise e ->
      get_product_ideas create category count = VList [].
Proof.
  intros H. rewrite (fallback_products_negative category count H).
  split; [reflexivity|]. intros create e He.
  unfold get_product_ideas. rewrite He. simpl.
  now apply fallback_products_negative.
Qed.

(** A negative count. *)
Lemma fallback_products_none_witness :
  get_product_ideas failing "pet toys" (-2) = VList [].
Proof.
  exact (proj2 (fallback_products_none "pet toys" (-2) ltac:(lia))
           failing (APIError "service unavailable") eq_refl).
Defined.

(** ** Decimal strings *)

(** [int(str(z))]: reading a printed integer gives it back. *)
Lemma int_of_str_of_int (z : Z) :
  option_map Z.of_int (NilZero.int_of_string (Py.str_of_int z)) = Some z.
Proof.
  unfold Py.str_of_int.
  pose proof (DecimalZ.of_to z) as Hz.
  destruct (Z.to_int z) as [u|u]; destruct u;
    try (rewrite NilZero.isi by discriminate; cbn [option_map];
         now rewrite Hz);
    simpl in *; now rewrite <- Hz.
Qed.

Lemma str_of_int_inj (z z' : Z) : Py.str_of_int z = Py.str_of_int z' -> z = z'.
Proof.
  intros H. pose proof (int_of_str_of_int z) as Hz.
  rewrite H, int_of_str_of_int in Hz. congruence.
Qed.

Lemma append_inv_head (s a b : string) : s ++ a = s ++ b -> a = b.
Proof. induction s as [|c r IH]; simpl; [auto | intros [= H]; auto]. Qed.

(** X16: the entries of the fallback list have pairwise different names. *)
Theorem fallback_names_differ (category : string) (i j : Z) :
  i <> j ->
  field "name" (fallback_product category i)
  <> field "name" (fallback_product category j).
Proof.
  intros Hij H. apply Hij. unfold fallback_product in H.
  cbv [field dict_get String.eqb Ascii.eqb Bool.eqb] in H.
  injection H as H. apply (append_inv_head category) in H.
  injection H as H. apply str_of_int_inj in H. lia.
Qed.

(** The first two entries for "pet toys". *)
Lemma fallback_names_differ_witness :
  field "name" (fallback_product "pet toys" 0)
  <> field "name" (fallback_product "pet toys" 1).
Proof.
  exact (fallback_names_differ "pet toys" 0 1 ltac:(lia)).
Defined.

(** ** The keys of the page *)

Lemma string_of_uint_digits (d : Decimal.uint) :
  all_digits (NilEmpty.string_of_uint d) = true.
Proof. induction d; simpl; auto. Qed.

(** A printed index is a non-empty run of digits. *)
Lemma str_of_nat_digits (n : nat) :
  exists d r,
    Py.str_of_int (Z.of_nat n) = String d r
    /\ Json.is_digit d = true /\ all_digits r = true.
Proof.
  unfold Py.str_of_int. destruct (Z.of_nat n) as [|p|p] eqn:E; [| |lia].
  - exists "0"%char, EmptyString. repeat split.
  - simpl. pose proof (string_of_uint_digits (Pos.to_uint p)) as Hd.
    unfold NilZero.string_of_uint.
    destruct (Pos.to_uint p);
      simpl in *; eexists _, _; repeat split; exact Hd.
Qed.

Lemma split_at_underscore (a a' b b' : string) :
  all_digits a = true -> all_digits a' = true ->
  a ++ String "_" b = a' ++ String "_" b' -> a = a' /\ b = b'.
Proof.
  revert a'; induction a as [|c a IH]; intros [|c' a']; simpl.
  - intros _ _ [= ->]. auto.
  - intros _ H [= <- _]. discriminate.
  - intros H _ [= -> _]. discriminate.
  - intros H H' [= -> Heq].
    apply andb_prop in H as [_ H]. apply andb_prop in H' as [_ H'].
    destruct (IH a' H H' Heq) as [-> ->]. auto.
Qed.

Lemma index_part_inj (idx dist_idx idx' dist_idx' : nat) :
  Py.str_of_int (Z.of_nat idx) ++ "_" ++ Py.str_of_int (Z.of_nat dist_idx)
  = Py.str_of_int (Z.of_nat idx') ++ "_" ++ Py.str_of_int (Z.of_nat dist_idx') ->
  idx = idx' /\ dist_idx = dist_idx'.
Proof.
  intros H.
  destruct (str_of_nat_digits idx) as (d & r & E & Hd & Hr).
  destruct (str_of_nat_digits idx') as (d' & r' & E' & Hd' & Hr').
  apply split_at_underscore in H as [H1 H2].
  - apply str_of_int_inj in H1. apply str_of_int_inj in H2. lia.
  - rewrite E. simpl. now rewrite Hd, Hr.
  - rewrite E'. simpl. now rewrite Hd', Hr'.
Qed.

(** X17: the keys the page gives its buttons, text areas and session flags
    are all different: two keys are equal only for the same kind of entry,
    the same product index and the same supplier index. *)
Theorem widget_keys_unique (w w' : widget) (idx dist_idx idx' dist_idx' : nat) :
  widget_key w idx dist_idx = widget_key w' idx' dist_idx' ->
  w = w' /\ idx = idx' /\ dist_idx = dist_idx'.
Proof.
  unfold widget_key.
  destruct (str_of_nat_digits idx) as (d & r & E & Hd & _).
  destruct (str_of_nat_digits idx') as (d' & r' & E' & Hd' & _).
  destruct w, w'; simpl; intros H; try discriminate;
    try (injection H as H; apply index_part_inj in H; tauto).
  - rewrite E in H. injection H as -> _. discriminate.
  - rewrite E' in H. injection H as <- _. discriminate.
Qed.

(** Equal keys of the email button. *)
Lemma widget_keys_unique_witness :
  EmailButton = EmailButton /\ 2%nat = 2%nat /\ 13%nat = 13%nat.
Proof.
  exact (widget_keys_unique EmailButton EmailButton 2 13 2 13 eq_refl).
Defined.

(** ** One keyword *)

(** X18: when exactly one keyword of the table occurs in the category, the
    finder returns the first four suppliers (all, if fewer) the catalog
    lists under the key of that keyword, in file order. *)
Theorem single_keyword_finds_its_key
        (D : catalog) (category product_name kw k : string) :
  In (kw, [k]) CATEGORY_MAP ->
  occurs_in kw category ->
  (forall kw' cats,
      In (kw', cats) CATEGORY_MAP -> occurs_in kw' category -> kw' = kw) ->
  find_distributors D category product_name = firstn 4 (suppliers_of D k).
Proof.
  intros Hin Hocc Hsole.
  assert (Hs : forall kw', occurs_in kw' category ->
                           (exists cats, In (kw', cats) CATEGORY_MAP) ->
                           kw' = kw).
  { intros kw' Ho [cats Hc]. now apply (Hsole kw' cats). }
  assert (Hm : matched_categories category = [k]).
  { rewrite matched_categories_by_keyword. apply keyword_test in Hocc.
    unfold CATEGORY_MAP in Hin. simpl in Hin.
    repeat (destruct Hin as [Hin|Hin];
            [ injection Hin as <- <-; rewrite Hocc;
              repeat match goal with
                     | |- context [Py.contains (Py.lower ?kw') (Py.lower category)] =>
                         let E := fresh "E" in
                         destruct (Py.contains (Py.lower kw') (Py.lower category)) eqn:E;
                         [ apply keyword_test in E; apply Hs in E;
                           [ discriminate E
                           | eexists; unfold CATEGORY_MAP; simpl; tauto ]
                         | ]
                     end;
              reflexivity
            | ]).
    destruct Hin. }
  unfold find_distributors. rewrite find_in_firstn.
  unfold dist_categories. rewrite Hm. unfold concatenation. simpl.
  now rewrite app_nil_r.
Qed.

(** The keyword "vitamin" alone, in "Vitamin C". *)
Lemma single_keyword_finds_its_key_witness :
  find_distributors sample_catalog "Vitamin C" "tablets"
  = firstn 4 (suppliers_of sample_catalog "health_wellness").
Proof.
  refine (single_keyword_finds_its_key sample_catalog "Vitamin C" "tablets"
            "vitamin" "health_wellness" _ _ _).
  - unfold CATEGORY_MAP. simpl. tauto.
  - now exists "", " c".
  - intros kw' cats Hin Hocc. apply contains_iff in Hocc.
    unfold CATEGORY_MAP in Hin. simpl in Hin.
    repeat (destruct Hin as [Hin|Hin];
            [injection Hin as <- <-; (reflexivity || discriminate Hocc)|]).
    destruct Hin.
Defined.
